(** * Image-Tunes: the recommendation service, embedded and verified

    Shallow embedding of [server/services/recommendationService.js]
    together with the two Mongoose schemas it reads ([Product], [User])
    and the routes of [server/routes/recommendations.js] that call it.

    Modelling conventions.
    - JavaScript numbers that carry scores, prices and ratings are exact
      rationals ([Q]); equalities between scores are stated with [==].
      The program computes with IEEE doubles, which may differ from the
      exact value in the last bit, so no property below rests on two
      different computations giving exactly the same score.
      Limits and counts are integers ([Z]); [Math.floor (limit / k)] is
      [limit / k] on [Z], which rounds towards minus infinity as
      [Math.floor] does.
    - Object ids are the strings produced by [toString()].
    - A field that may be missing (undefined) is an [option].
    - [try { ... } catch] is an explicit error monad: a body of type
      [result A] and a handler.
    - The document store is a value: the [User] collection is a finite
      map from ids to documents as [findById] returns them, the [Product]
      collection a list in store order, and a store may refuse any kind
      of operation. An update whose ids cannot be cast to ObjectIds
      rejects before it reaches the store. *)

From Stdlib Require Import ZArith QArith Qabs Lia Lqa.
From stdpp Require Import base option list gmap sets strings sorting.

Local Open Scope Z_scope.
Set Warnings "-clear-no-such-hyp".

(** ** Exceptions *)

Inductive Error : Type :=
| TypeError    (* property access on undefined *)
| StoreError   (* a rejected store query or update *)
| CastError.   (* an id that cannot be cast to ObjectId *)

Inductive result (A : Type) : Type :=
| Return (a : A)
| Throw (e : Error).
Arguments Return {A} a.
Arguments Throw {A} e.

#[global] Instance result_ret : MRet result := λ A a, Return a.
#[global] Instance result_bind : MBind result := λ A B k m,
  match m with
  | Return a => k a
  | Throw e => Throw e
  end.

(** [try { body } catch (error) { handler }], the handler being a value. *)
Definition try_catch {A : Type} (body : result A) (handler : A) : A :=
  match body with
  | Return a => a
  | Throw _ => handler
  end.

(** ** Documents *)

Module Product.
Record t : Type := mk {
  _id : string;
  name : string;
  category : string;
  price : Q;
  tags : option (list string);
  rating : Q;
  reviewCount : Z
}.
End Product.

Module Preferences.
Record range : Type := mkRange {
  min : option Q;
  max : option Q
}.
Record t : Type := mk {
  categories : option (list string);
  priceRange : option range;
  tags : option (list string)
}.
End Preferences.

Module User.
Record entry : Type := mkEntry {
  productId : string;
  at_ : Z          (* viewedAt / purchasedAt *)
}.
Record t : Type := mk {
  name : string;
  email : string;
  password : string;
  preferences : option Preferences.t;
  viewHistory : list entry;
  purchases : list entry
}.
End User.

(** ** Array primitives *)

(** [arr.includes(x)] on strings. *)
Definition includes (arr : list string) (x : string) : bool :=
  bool_decide (x ∈ arr).

(** [arr.slice(0, n)]: a negative [n] counts from the end. *)
Definition slice0 {A : Type} (n : Z) (arr : list A) : list A :=
  if 0 <=? n then take (Z.to_nat n) arr
  else take (Z.to_nat (Z.of_nat (length arr) + n)) arr.

(** [a >= b] and [a <= b] where [b] may be undefined (the comparison is
    then false). *)
Definition js_ge (a : Q) (b : option Q) : bool :=
  match b with Some b => Qle_bool b a | None => false end.
Definition js_le (a : Q) (b : option Q) : bool :=
  match b with Some b => Qle_bool a b | None => false end.

(** ** Similarity scorer *)

(** The running pair [(score, maxScore)]. *)
Definition acc : Type := (Q * Q)%type.

Definition categoryMatch (up : Preferences.t) (product : Product.t) (a : acc) : acc :=
  let '(score, maxScore) := a in
  match Preferences.categories up with
  | Some ((_ :: _) as categories) =>
      let maxScore := (maxScore + 0.4)%Q in
      if includes categories (Product.category product)
      then ((score + 0.4)%Q, maxScore)
      else (score, maxScore)
  | _ => (score, maxScore)
  end.

Definition priceMatch (up : Preferences.t) (product : Product.t) (a : acc) : acc :=
  let '(score, maxScore) := a in
  match Preferences.priceRange up with
  | Some priceRange =>
      let maxScore := (maxScore + 0.3)%Q in
      if js_ge (Product.price product) (Preferences.min priceRange)
         && js_le (Product.price product) (Preferences.max priceRange)
      then ((score + 0.3)%Q, maxScore)
      else (score, maxScore)
  | None => (score, maxScore)
  end.

(** [product.tags.filter(tag => userPreferences.tags.includes(tag))] *)
Definition matchingTags (prefTags productTags : list string) : list string :=
  filter (λ tag, includes prefTags tag = true) productTags.

(** What line 87 adds to [score]. *)
Definition tagComponent (prefTags productTags : list string) : Q :=
  ((inject_Z (Z.of_nat (length (matchingTags prefTags productTags)))
    / inject_Z (Z.max (Z.of_nat (length prefTags)) 1)) * 0.3)%Q.

Definition tagsMatch (up : Preferences.t) (product : Product.t) (a : acc) : acc :=
  let '(score, maxScore) := a in
  match Preferences.tags up, Product.tags product with
  | Some ((_ :: _) as prefTags), Some productTags =>
      ((score + tagComponent prefTags productTags)%Q, (maxScore + 0.3)%Q)
  | _, _ => (score, maxScore)
  end.

Definition normalize (a : acc) : Q :=
  let '(score, maxScore) := a in
  if Qlt_le_dec 0 maxScore then (score / maxScore)%Q else 0%Q.

Definition calculateSimilarityScore
    (userPreferences : option Preferences.t) (product : Product.t) : result Q :=
  match userPreferences with
  | None => Throw TypeError
  | Some up =>
      Return (normalize
        (tagsMatch up product
          (priceMatch up product
            (categoryMatch up product (0%Q, 0%Q)))))
  end.

(** ** The document store *)

(** Kinds of store calls the service makes. *)
Inductive Op : Type :=
| FindById            (* User.findById *)
| FindUsers           (* User.find *)
| FindProducts        (* Product.find *)
| FindByIdAndUpdate.  (* User.findByIdAndUpdate *)

Record Store : Type := mkStore {
  users : gmap string User.t;
  products : list Product.t;
  refuses : Op → bool     (* the calls that currently reject *)
}.

(** A store call either rejects or resolves to its answer. *)
Definition query {A : Type} (st : Store) (op : Op) (answer : A) : result A :=
  if refuses st op then Throw StoreError else Return answer.

(** [.limit(n)] on a query, with the cursor semantics of the database:
    [0] means no limit and a negative [n] limits to [-n]. *)
Definition store_limit {A : Type} (n : Z) (docs : list A) : list A :=
  if n =? 0 then docs else take (Z.to_nat (Z.abs n)) docs.

(** A stable sort; [before a b] holds when [a] must come strictly before
    [b]. Used for [Array.prototype.sort] with a comparator and for the
    store-side [.sort(...)]. *)
Section Sort.
Context {A : Type} (before : A → A → bool).

Fixpoint insert_sorted (x : A) (l : list A) : list A :=
  match l with
  | [] => [x]
  | y :: l' => if before y x then y :: insert_sorted x l' else x :: y :: l'
  end.

Definition sort_by (l : list A) : list A := foldr insert_sorted [] l.
End Sort.

(** [[...user.viewHistory.map(item => item.productId.toString()),
      ...user.purchases.map(item => item.productId.toString())]] *)
Definition userProductIds (user : User.t) : list string :=
  (User.productId <$> User.viewHistory user)
  ++ (User.productId <$> User.purchases user).

(** [User.findById(userId)] *)
Definition User_findById (st : Store) (userId : string) : result (option User.t) :=
  query st FindById (users st !! userId).

(** The filter of the neighbour query: [_id ≠ userId] and some viewed or
    purchased product id is [$in ids]. *)
Definition similar_to (userId : string) (ids : list string) (doc : string * User.t) : bool :=
  negb (bool_decide (doc.1 = userId))
  && (existsb (includes ids) (User.productId <$> User.viewHistory doc.2)
      || existsb (includes ids) (User.productId <$> User.purchases doc.2)).

(** [User.find({_id: {$ne: userId}, $or: [...]}).limit(10)] *)
Definition User_find_similar (st : Store) (userId : string) (ids : list string)
    : result (list User.t) :=
  query st FindUsers
    (store_limit 10
       (filter (λ doc, similar_to userId ids doc = true) (map_to_list (users st))).*2).

(** [Product.find({_id: {$in: ids}}).limit(limit)] *)
Definition Product_find_in (st : Store) (ids : list string) (limit : Z)
    : result (list Product.t) :=
  query st FindProducts
    (store_limit limit
       (filter (λ p, includes ids (Product._id p) = true) (products st))).

(** [Product.find({_id: {$nin: ids}})] *)
Definition Product_find_nin (st : Store) (ids : list string) : result (list Product.t) :=
  query st FindProducts
    (filter (λ p, includes ids (Product._id p) = false) (products st)).

(** [{reviewCount: -1, rating: -1}] *)
Definition trending_before (a b : Product.t) : bool :=
  (Product.reviewCount b <? Product.reviewCount a)
  || ((Product.reviewCount a =? Product.reviewCount b)
      && negb (Qle_bool (Product.rating a) (Product.rating b))).

(** [Product.find().sort({reviewCount: -1, rating: -1}).limit(limit)] *)
Definition Product_find_trending (st : Store) (limit : Z) : result (list Product.t) :=
  query st FindProducts (store_limit limit (sort_by trending_before (products st))).

(** ** Strategy generators *)

(** The [forEach] of lines 127-131 for one neighbour. *)
Definition addUnseen (userProductIds : list string)
    (similarUserProductIds : gset string) (similarUser : User.t) : gset string :=
  let viewedProducts := User.productId <$> User.viewHistory similarUser in
  let purchasedProducts := User.productId <$> User.purchases similarUser in
  foldl (λ (s : gset string) productId,
           if includes userProductIds productId then s else {[productId]} ∪ s)
        similarUserProductIds (viewedProducts ++ purchasedProducts).

Definition getCollaborativeRecommendations_try
    (st : Store) (userId : string) (limit : Z) : result (list Product.t) :=
  user ← User_findById st userId;
  match user with
  | None => Return []
  | Some user =>
      let userProductIds := userProductIds user in
      similarUsers ← User_find_similar st userId userProductIds;
      let similarUserProductIds := foldl (addUnseen userProductIds) ∅ similarUsers in
      recommendations ← Product_find_in st (elements similarUserProductIds) limit;
      Return recommendations
  end.

Definition getCollaborativeRecommendations
    (st : Store) (userId : string) (limit : Z) : list Product.t :=
  try_catch (getCollaborativeRecommendations_try st userId limit) [].

(** [(a, b) => b.score - a.score] is negative when [a] scores higher. *)
Definition score_before (a b : Product.t * Q) : bool :=
  negb (Qle_bool a.2 b.2).

Definition getContentBasedRecommendations_try
    (st : Store) (userId : string) (limit : Z) : result (list Product.t) :=
  user ← User_findById st userId;
  match user with
  | None => Return []
  | Some user =>
      match User.preferences user with
      | None => Return []
      | Some _ =>
          allProducts ← Product_find_nin st (userProductIds user);
          scoredProducts ← mapM (λ product,
              score ← calculateSimilarityScore (User.preferences user) product;
              Return (product, score)) allProducts;
          Return ((slice0 limit (sort_by score_before scoredProducts)).*1)
      end
  end.

Definition getContentBasedRecommendations
    (st : Store) (userId : string) (limit : Z) : list Product.t :=
  try_catch (getContentBasedRecommendations_try st userId limit) [].

Definition getTrendingProducts (st : Store) (limit : Z) : list Product.t :=
  try_catch (Product_find_trending st limit) [].

(** ** Blender *)

(** The object [getRecommendations] resolves to; a key that the object
    does not have is [None]. *)
Record Response : Type := mkResponse {
  recommendations : list Product.t;
  contentBased : option (list Product.t);
  collaborative : option (list Product.t);
  trending : list Product.t
}.

(** [seenIds] and [combinedRecommendations]. *)
Definition merged : Type := (gset string * list Product.t)%type.

(** Loop body of the collaborative and content-based passes. *)
Definition addProduct (m : merged) (product : Product.t) : merged :=
  let '(seenIds, combinedRecommendations) := m in
  let id := Product._id product in
  if negb (bool_decide (id ∈ seenIds))
  then ({[id]} ∪ seenIds, combinedRecommendations ++ [product])
  else m.

(** Loop body of the trending pass. *)
Definition addTrending (limit : Z) (m : merged) (product : Product.t) : merged :=
  let '(seenIds, combinedRecommendations) := m in
  let id := Product._id product in
  if negb (bool_decide (id ∈ seenIds))
     && (Z.of_nat (length combinedRecommendations) <? limit)
  then ({[id]} ∪ seenIds, combinedRecommendations ++ [product])
  else m.

(** Lines 227-255. *)
Definition combine (limit : Z) (collaborative contentBased trending : list Product.t)
    : list Product.t :=
  let m := foldl addProduct (∅, []) collaborative in
  let m := foldl addProduct m contentBased in
  let m := foldl (addTrending limit) m trending in
  m.2.

(** [!userId]: undefined, null and the empty string are falsy. *)
Definition absent (userId : option string) : bool :=
  match userId with
  | None => true
  | Some s => bool_decide (s = "")
  end.

Definition emptyResponse : Response :=
  {| recommendations := []; contentBased := Some [];
     collaborative := Some []; trending := [] |}.

(** The blender over arbitrary generator promises, each of which resolves
    or rejects. [Promise.all] rejects as soon as one of them does. *)
Section Blender.
Variables contentBasedGen collaborativeGen : string → Z → result (list Product.t).
Variable trendingGen : Z → result (list Product.t).

Definition blend_try (userId : option string) (limit : Z) : result Response :=
  if absent userId then
    trending ← trendingGen limit;
    Return {| recommendations := trending; contentBased := None;
              collaborative := None; trending := trending |}
  else
    let userId := default "" userId in
    contentBased ← contentBasedGen userId (limit / 2);
    collaborative ← collaborativeGen userId (limit / 2);
    trending ← trendingGen (limit / 3);
    Return {| recommendations :=
                slice0 limit (combine limit collaborative contentBased trending);
              contentBased := Some contentBased;
              collaborative := Some collaborative;
              trending := trending |}.

Definition blend (userId : option string) (limit : Z) : Response :=
  try_catch (blend_try userId limit) emptyResponse.
End Blender.

(** [getRecommendations(userId, limit)]; a caller that omits [limit]
    passes the default [10]. The three generators never reject. *)
Definition getRecommendations (st : Store) (userId : option string) (limit : Z)
    : Response :=
  blend (λ userId limit, Return (getContentBasedRecommendations st userId limit))
        (λ userId limit, Return (getCollaborativeRecommendations st userId limit))
        (λ limit, Return (getTrendingProducts st limit))
        userId limit.

(** ** History and preference mutators *)

Definition pushView (productId : string) (now : Z) (user : User.t) : User.t :=
  {| User.name := User.name user;
     User.email := User.email user;
     User.password := User.password user;
     User.preferences := User.preferences user;
     User.viewHistory := User.viewHistory user ++ [User.mkEntry productId now];
     User.purchases := User.purchases user |}.

Definition pushPurchase (productId : string) (now : Z) (user : User.t) : User.t :=
  {| User.name := User.name user;
     User.email := User.email user;
     User.password := User.password user;
     User.preferences := User.preferences user;
     User.viewHistory := User.viewHistory user;
     User.purchases := User.purchases user ++ [User.mkEntry productId now] |}.

(** The schema defaults of the nested [preferences] path (lines 27-34):
    a document loaded from the store has all of them filled in. *)
Definition hydrateRange (range : option Preferences.range) : Preferences.range :=
  match range with
  | Some range =>
      {| Preferences.min := Some (default 0%Q (Preferences.min range));
         Preferences.max := Some (default 1000%Q (Preferences.max range)) |}
  | None => {| Preferences.min := Some 0%Q; Preferences.max := Some 1000%Q |}
  end.

Definition hydrate (preferences : Preferences.t) : Preferences.t :=
  {| Preferences.categories := Some (default [] (Preferences.categories preferences));
     Preferences.priceRange := Some (hydrateRange (Preferences.priceRange preferences));
     Preferences.tags := Some (default [] (Preferences.tags preferences)) |}.

(** [{preferences}] as an update: an undefined value is dropped from the
    update and nothing is set; an object replaces the stored preferences
    and is read back with the schema defaults. *)
Definition setPreferences (preferences : option Preferences.t) (user : User.t) : User.t :=
  match preferences with
  | None => user
  | Some preferences =>
      {| User.name := User.name user;
         User.email := User.email user;
         User.password := User.password user;
         User.preferences := Some (hydrate preferences);
         User.viewHistory := User.viewHistory user;
         User.purchases := User.purchases user |}
  end.

(** A hexadecimal digit, in either case. *)
Definition isHexDigit (c : Ascii.ascii) : bool :=
  let n := Ascii.nat_of_ascii c in
  ((48 <=? n) && (n <=? 57) || (65 <=? n) && (n <=? 70)
   || (97 <=? n) && (n <=? 102))%nat.

Fixpoint allHexDigits (s : string) : bool :=
  match s with
  | String.EmptyString => true
  | String.String c s' => isHexDigit c && allHexDigits s'
  end.

(** The strings that can be cast to an ObjectId: 24 hexadecimal digits.
    Ids are compared as strings, so equal ids are taken to be spelt
    alike. *)
Definition isObjectId (s : string) : bool :=
  (String.length s =? 24)%nat && allHexDigits s.

Definition castObjectId (s : string) : result string :=
  if isObjectId s then Return s else Throw CastError.

(** The update documents the service sends. *)
Inductive Update : Type :=
| PushViewHistory (productId : string) (viewedAt : Z)
| PushPurchases (productId : string) (purchasedAt : Z)
| SetPreferences (preferences : option Preferences.t).

(** Casting an update document to the schema: the [productId] of a
    pushed entry must be an ObjectId. *)
Definition castUpdate (update : Update) : result (User.t → User.t) :=
  match update with
  | PushViewHistory productId viewedAt =>
      productId ← castObjectId productId;
      Return (pushView productId viewedAt)
  | PushPurchases productId purchasedAt =>
      productId ← castObjectId productId;
      Return (pushPurchase productId purchasedAt)
  | SetPreferences preferences => Return (setPreferences preferences)
  end.

(** [User.findByIdAndUpdate(userId, update)]: the id and the update are
    cast first - the call rejects if that fails - and the update is then
    applied to the document with that id, if there is one. *)
Definition User_findByIdAndUpdate (st : Store) (userId : string)
    (update : Update) : result Store :=
  userId ← castObjectId userId;
  change ← castUpdate update;
  query st FindByIdAndUpdate
    {| users := alter change userId (users st);
       products := products st;
       refuses := refuses st |}.

(** Each mutator returns the store it leaves behind; [now] is what
    [new Date()] evaluates to. *)
Definition recordProductView (st : Store) (userId productId : string) (now : Z) : Store :=
  try_catch (User_findByIdAndUpdate st userId (PushViewHistory productId now)) st.

Definition recordProductPurchase (st : Store) (userId productId : string) (now : Z) : Store :=
  try_catch (User_findByIdAndUpdate st userId (PushPurchases productId now)) st.

Definition updateUserPreferences (st : Store) (userId : string)
    (preferences : option Preferences.t) : Store :=
  try_catch (User_findByIdAndUpdate st userId (SetPreferences preferences)) st.

(** ** HTTP routes ([server/routes/recommendations.js]) *)

(** The names [server/services/recommendationService.js] exports. *)
Definition moduleExports : list string :=
  ["getRecommendations"; "recordProductView"; "recordProductPurchase";
   "updateUserPreferences"].

(** [recommendationService.name(...)]: calling a member the module does
    not export is a call of [undefined]. *)
Definition callExport {A : Type} (name : string) (call : A) : result A :=
  if bool_decide (name ∈ moduleExports) then Return call else Throw TypeError.

(** What a handler reads from the request. [user] is the id carried by
    [req.user], [None] when no middleware has set [req.user]; [limit] is
    [parseInt(req.query.limit)], [None] standing for NaN. *)
Module Request.
Record t : Type := mk {
  user : option string;
  limit : option Z;
  productId : string;            (* req.params.productId *)
  body : option Preferences.t    (* req.body *)
}.
End Request.

Inductive Payload : Type :=
| Recommendations (r : Response)
| ProductList (l : list Product.t)
| Message (m : string).

(** [res.status(s).json(payload)]; [res.json] alone answers 200. *)
Record Reply : Type := mkReply {
  status : Z;
  payload : Payload
}.

(** [req.user.id] *)
Definition userIdOf (req : Request.t) : result string :=
  match Request.user req with
  | Some id => Return id
  | None => Throw TypeError
  end.

(** [parsed || fallback]: NaN and 0 are falsy. *)
Definition orDefault (parsed : option Z) (fallback : Z) : Z :=
  match parsed with
  | Some n => if n =? 0 then fallback else n
  | None => fallback
  end.

(** [router.get('/', authMiddleware, ...)] *)
Definition getRoot (st : Store) (req : Request.t) : Reply :=
  try_catch
    (userId ← userIdOf req;
     let limit := orDefault (Request.limit req) 10 in
     recommendations ← callExport "getRecommendations"
                          (getRecommendations st (Some userId) limit);
     Return {| status := 200; payload := Recommendations recommendations |})
    {| status := 500; payload := Message "Error fetching recommendations" |}.

(** [router.get('/trending', ...)] *)
Definition getTrending (st : Store) (req : Request.t) : Reply :=
  try_catch
    (let limit := orDefault (Request.limit req) 5 in
     trending ← callExport "getTrendingProducts" (getTrendingProducts st limit);
     Return {| status := 200; payload := ProductList trending |})
    {| status := 500; payload := Message "Error fetching trending products" |}.

(** [router.post('/view/:productId', authMiddleware, ...)]; the handlers
    that write return the store they leave behind with their reply. *)
Definition postView (st : Store) (req : Request.t) (now : Z) : Store * Reply :=
  try_catch
    (userId ← userIdOf req;
     let productId := Request.productId req in
     st' ← callExport "recordProductView" (recordProductView st userId productId now);
     Return (st', {| status := 200; payload := Message "View recorded" |}))
    (st, {| status := 500; payload := Message "Error recording view" |}).

(** [router.post('/purchase/:productId', authMiddleware, ...)] *)
Definition postPurchase (st : Store) (req : Request.t) (now : Z) : Store * Reply :=
  try_catch
    (userId ← userIdOf req;
     let productId := Request.productId req in
     st' ← callExport "recordProductPurchase"
             (recordProductPurchase st userId productId now);
     Return (st', {| status := 200; payload := Message "Purchase recorded" |}))
    (st, {| status := 500; payload := Message "Error recording purchase" |}).

(** [router.put('/preferences', authMiddleware, ...)] *)
Definition putPreferences (st : Store) (req : Request.t) : Store * Reply :=
  try_catch
    (userId ← userIdOf req;
     let preferences := Request.body req in
     st' ← callExport "updateUserPreferences"
             (updateUserPreferences st userId preferences);
     Return (st', {| status := 200; payload := Message "Preferences updated" |}))
    (st, {| status := 500; payload := Message "Error updating preferences" |}).

(** ** Reference definitions, following the specification's wording *)

(** The tag credit as the specification words it:
    [(|product.tags ∩ preferences.tags| / max(|preferences.tags|,1)) × 0.3],
    the intersection being one of sets and [|preferences.tags|] the
    length of the preference sequence. *)
Definition tagComponent_spec (prefTags productTags : list string) : Q :=
  ((inject_Z (Z.of_nat (size (list_to_set productTags ∩ list_to_set prefTags
                               : gset string)))
    / inject_Z (Z.max (Z.of_nat (length prefTags)) 1)) * 0.3)%Q.

(** Preferences with no applicable sub-field: no category list or an
    empty one, no price range, no tag list or an empty one. *)
Definition noApplicablePreferences (up : Preferences.t) : bool :=
  match Preferences.categories up, Preferences.priceRange up, Preferences.tags up with
  | (None | Some []), None, (None | Some []) => true
  | _, _, _ => false
  end.

(** The ids of a list of products, as a set. *)
Definition ids (l : list Product.t) : gset string :=
  list_to_set (Product._id <$> l).

(** First-seen wins: walking the list in order, a product is kept only
    if its id was not already added. *)
Fixpoint firstSeen (added : gset string) (l : list Product.t) : list Product.t :=
  match l with
  | [] => []
  | product :: l =>
      if bool_decide (Product._id product ∈ added) then firstSeen added l
      else product :: firstSeen ({[Product._id product]} ∪ added) l
  end.

(** The merge as the specification words it: collaborative first, then
    content-based, then trending, each product added only if its id was
    not already added; the trending pass stops once the combined list
    has [limit] entries. *)
Definition merge_spec (limit : Z) (collaborative contentBased trending : list Product.t)
    : list Product.t :=
  let first := firstSeen ∅ collaborative in
  let second := firstSeen (ids first) contentBased in
  let third := firstSeen (ids (first ++ second)) trending in
  (first ++ second)
  ++ take (Z.to_nat (limit - Z.of_nat (length (first ++ second)))) third.

(** The invariant of the three weighted checks: [0 ≤ score ≤ maxScore]. *)
Definition within (a : acc) : Prop := (0 <= a.1)%Q ∧ (a.1 <= a.2)%Q.

(** ** Orders and scores used to state the properties of the generators *)

(** The score [calculateSimilarityScore] returns for present preferences. *)
Definition scoreOf (up : Preferences.t) (product : Product.t) : Q :=
  normalize (tagsMatch up product (priceMatch up product
    (categoryMatch up product (0%Q, 0%Q)))).

(** [a] may stand before [b] in a list sorted with [before]. *)
Definition may_precede {A : Type} (before : A → A → bool) (a b : A) : Prop :=
  before b a = false.

(** Preferences without their tag list. *)
Definition withoutTags (up : Preferences.t) : Preferences.t :=
  {| Preferences.categories := Preferences.categories up;
     Preferences.priceRange := Preferences.priceRange up;
     Preferences.tags := None |}.

(** The product's price earns the price credit. *)
Definition priceInRange (range : Preferences.range) (product : Product.t) : bool :=
  js_ge (Product.price product) (Preferences.min range)
  && js_le (Product.price product) (Preferences.max range).

(** Every criterion that enters [maxScore] is matched in full: the
    category is one of the preferred ones, the price earns its credit,
    and every preferred tag is a tag of the product (neither list
    repeating an entry). *)
Definition fullyMatches (up : Preferences.t) (product : Product.t) : Prop :=
  match Preferences.categories up with
  | Some ((_ :: _) as categories) =>
      includes categories (Product.category product) = true
  | _ => True
  end
  ∧ match Preferences.priceRange up with
    | Some range => priceInRange range product = true
    | None => True
    end
  ∧ match Preferences.tags up, Product.tags product with
    | Some ((_ :: _) as prefTags), Some productTags =>
        NoDup prefTags ∧ NoDup productTags ∧ prefTags ⊆ productTags
    | _, _ => True
    end.

(** Some criterion enters [maxScore]. *)
Definition applies (up : Preferences.t) (product : Product.t) : bool :=
  match Preferences.categories up with Some (_ :: _) => true | _ => false end
  || bool_decide (is_Some (Preferences.priceRange up))
  || match Preferences.tags up, Product.tags product with
     | Some (_ :: _), Some _ => true
     | _, _ => false
     end.

(** The comparator of the content-based ranking, on products. *)
Definition scores_higher (up : Preferences.t) (a b : Product.t) : bool :=
  negb (Qle_bool (scoreOf up a) (scoreOf up b)).

(** [a] ranks at least as high as [b] by similarity. *)
Definition by_score (up : Preferences.t) (a b : Product.t) : Prop :=
  (scoreOf up b <= scoreOf up a)%Q.

(** [a] ranks at least as high as [b] in the trending order: more
    reviews, or as many reviews and a rating at least as good. *)
Definition by_popularity (a b : Product.t) : Prop :=
  Product.reviewCount b < Product.reviewCount a
  ∨ (Product.reviewCount a = Product.reviewCount b
     ∧ (Product.rating b <= Product.rating a)%Q).

(** The products the user has neither viewed nor purchased. *)
Definition unseen (st : Store) (user : User.t) : list Product.t :=
  filter (λ p, includes (userProductIds user) (Product._id p) = false) (products st).

(** [b] has the category, price and tags of [a]: the scorer cannot
    tell the two apart. *)
Definition sameInputs (a b : Product.t) : Prop :=
  Product.category b = Product.category a
  ∧ (Product.price b == Product.price a)%Q
  ∧ Product.tags b = Product.tags a.

#[global] Instance sameInputs_dec a b : Decision (sameInputs a b) :=
  and_dec (decide (Product.category b = Product.category a))
    (and_dec (Qeq_dec (Product.price b) (Product.price a))
       (decide (Product.tags b = Product.tags a))).

(** ** Sample documents *)

Definition sampleProduct (id : string) (productTags : list string) : Product.t :=
  {| Product._id := id; Product.name := "item"; Product.category := "audio";
     Product.price := 10%Q; Product.tags := Some productTags;
     Product.rating := 0%Q; Product.reviewCount := 0 |}.

Definition tagsOnly (prefTags : list string) : Preferences.t :=
  {| Preferences.categories := None; Preferences.priceRange := None;
     Preferences.tags := Some prefTags |}.

Definition noPreferences : Preferences.t :=
  {| Preferences.categories := None; Preferences.priceRange := None;
     Preferences.tags := None |}.

Definition plainUser (preferences : option Preferences.t)
    (viewed purchased : list string) : User.t :=
  {| User.name := "user"; User.email := "user@example.org";
     User.password := "secret"; User.preferences := preferences;
     User.viewHistory := (λ id, User.mkEntry id 0) <$> viewed;
     User.purchases := (λ id, User.mkEntry id 0) <$> purchased |}.

(** Two users with overlapping histories and four products; [u2] has no
    preferences object. *)
Definition sampleStore : Store :=
  {| users := <["u1" := plainUser (Some (tagsOnly ["a"])) ["p1"] []]>
               (<["u2" := plainUser None ["p1"; "p2"] ["p3"]]> ∅);
     products := [sampleProduct "p1" ["a"]; sampleProduct "p2" ["a"; "b"];
                  sampleProduct "p3" ["b"]; sampleProduct "p4" []];
     refuses := λ _, false |}.

Definition P1 : Product.t := sampleProduct "p1" ["a"].
Definition P2 : Product.t := sampleProduct "p2" ["a"; "b"].
Definition P3 : Product.t := sampleProduct "p3" ["b"].
Definition P4 : Product.t := sampleProduct "p4" [].

(** Generators stubbed to resolve to fixed lists. *)
Definition resolving (l : list Product.t) : string → Z → result (list Product.t) :=
  λ _ _, Return l.

(** The sample store while the database is unreachable. *)
Definition unreachableStore : Store :=
  {| users := users sampleStore; products := products sampleStore;
     refuses := λ _, true |}.

Definition audioOnly : Preferences.t :=
  {| Preferences.categories := Some ["audio"]; Preferences.priceRange := None;
     Preferences.tags := None |}.

(** A price range whose upper bound is missing. *)
Definition openRange : Preferences.t :=
  {| Preferences.categories := None;
     Preferences.priceRange := Some (Preferences.mkRange (Some 0%Q) None);
     Preferences.tags := None |}.

Definition everything : Preferences.t :=
  {| Preferences.categories := Some ["audio"; "video"];
     Preferences.priceRange := Some (Preferences.mkRange (Some 0%Q) (Some 50%Q));
     Preferences.tags := Some ["a"; "b"] |}.

Definition untagged : Product.t :=
  {| Product._id := "p9"; Product.name := "item"; Product.category := "audio";
     Product.price := 10%Q; Product.tags := None;
     Product.rating := 0%Q; Product.reviewCount := 0 |}.

(** The sample store with a third user who has no history yet. *)
Definition storeWithNewcomer : Store :=
  {| users := <["u3" := plainUser (Some audioOnly) [] []]> (users sampleStore);
     products := products sampleStore;
     refuses := λ _, false |}.

(** Requests: authenticated as [u1] with an unparsable limit, and
    without authentication. *)
Definition requestOf (user : option string) (limit : option Z) : Request.t :=
  {| Request.user := user; Request.limit := limit;
     Request.productId := "p4"; Request.body := Some audioOnly |}.





(** A store in which two products differ in nothing but their id. *)
Definition storeWithTwins : Store :=
  {| users := users sampleStore;
     products := [sampleProduct "p5" ["b"]; sampleProduct "p2" ["a"];
                  sampleProduct "p6" ["b"]];
     refuses := λ _, false |}.

(** * Verification *)

(** ** Similarity scorer *)

Lemma includes_true (arr : list string) (x : string) :
  includes arr x = true ↔ x ∈ arr.
Proof. unfold includes. apply bool_decide_eq_true. Qed.

Lemma matchingTags_elem_of (prefTags productTags : list string) (tag : string) :
  tag ∈ matchingTags prefTags productTags ↔ tag ∈ productTags ∧ tag ∈ prefTags.
Proof.
  unfold matchingTags. rewrite list_elem_of_filter, includes_true. tauto.
Qed.

Lemma matchingTags_length_le (prefTags productTags : list string) :
  NoDup productTags →
  (length (matchingTags prefTags productTags) ≤ length prefTags)%nat.
Proof.
  intros Hnd. apply submseteq_length, NoDup_submseteq.
  - unfold matchingTags. by apply NoDup_filter.
  - intros tag Htag. by apply matchingTags_elem_of in Htag as [_ ?].
Qed.

(** On a duplicate-free [product.tags] the filter counts the set
    intersection. *)
Lemma matchingTags_length_size (prefTags productTags : list string) :
  NoDup productTags →
  length (matchingTags prefTags productTags)
  = size (list_to_set productTags ∩ list_to_set prefTags : gset string).
Proof.
  intros Hnd.
  rewrite <- (size_list_to_set (C := gset string) (matchingTags prefTags productTags)).
  - f_equal. apply set_eq. intros tag.
    rewrite elem_of_intersection, !elem_of_list_to_set.
    apply matchingTags_elem_of.
  - unfold matchingTags. by apply NoDup_filter.
Qed.

Lemma tagComponent_nonneg (prefTags productTags : list string) :
  (0 <= tagComponent prefTags productTags)%Q.
Proof.
  unfold tagComponent.
  set (m := Z.of_nat (length (matchingTags prefTags productTags))).
  set (n := Z.max (Z.of_nat (length prefTags)) 1).
  assert (Hn : (0 < inject_Z n)%Q) by (rewrite <- (Zlt_Qlt 0); lia).
  assert (Hm : (0 <= inject_Z m / inject_Z n)%Q).
  { apply Qle_shift_div_l; [exact Hn|]. rewrite Qmult_0_l.
    rewrite <- (Zle_Qle 0). lia. }
  lra.
Qed.

Lemma tagComponent_le_weight (prefTags productTags : list string) :
  NoDup productTags →
  (tagComponent prefTags productTags <= 0.3)%Q.
Proof.
  intros Hnd. pose proof (matchingTags_length_le prefTags _ Hnd) as Hle.
  unfold tagComponent.
  set (m := Z.of_nat (length (matchingTags prefTags productTags))) in *.
  set (n := Z.max (Z.of_nat (length prefTags)) 1).
  assert (Hn : (0 < inject_Z n)%Q) by (rewrite <- (Zlt_Qlt 0); lia).
  assert (Hm : (inject_Z m / inject_Z n <= 1)%Q).
  { apply Qle_shift_div_r; [exact Hn|]. rewrite Qmult_1_l.
    rewrite <- Zle_Qle. lia. }
  lra.
Qed.

Lemma categoryMatch_within up product a :
  within a → within (categoryMatch up product a).
Proof.
  destruct a as [score maxScore]. unfold within, categoryMatch. simpl.
  intros [? ?]. destruct (Preferences.categories up) as [[|c cs]|]; simpl; [lra| |lra].
  destruct (includes _ _); simpl; lra.
Qed.

Lemma priceMatch_within up product a :
  within a → within (priceMatch up product a).
Proof.
  destruct a as [score maxScore]. unfold within, priceMatch. simpl.
  intros [? ?]. destruct (Preferences.priceRange up); simpl; [|lra].
  destruct (_ && _); simpl; lra.
Qed.

Lemma tagsMatch_within up product a :
  (∀ productTags, Product.tags product = Some productTags → NoDup productTags) →
  within a → within (tagsMatch up product a).
Proof.
  destruct a as [score maxScore]. unfold within, tagsMatch. simpl.
  intros Hnd [? ?].
  destruct (Preferences.tags up) as [[|t ts]|]; simpl; [lra| |lra].
  destruct (Product.tags product) as [productTags|]; simpl; [|lra].
  pose proof (tagComponent_nonneg (t :: ts) productTags).
  pose proof (tagComponent_le_weight (t :: ts) productTags (Hnd _ eq_refl)).
  lra.
Qed.

Lemma normalize_unit_interval a :
  within a → (0 <= normalize a)%Q ∧ (normalize a <= 1)%Q.
Proof.
  destruct a as [score maxScore]. unfold within, normalize. simpl.
  intros [? ?]. destruct (Qlt_le_dec 0 maxScore) as [Hpos|_]; [|lra].
  split.
  - apply Qle_shift_div_l; [exact Hpos|]. lra.
  - apply Qle_shift_div_r; [exact Hpos|]. lra.
Qed.

(** The score is normalised whenever [product.tags] repeats no entry. *)
Lemma calculateSimilarityScore_unit_interval up product :
  (∀ productTags, Product.tags product = Some productTags → NoDup productTags) →
  ∃ s, calculateSimilarityScore (Some up) product = Return s
       ∧ (0 <= s)%Q ∧ (s <= 1)%Q.
Proof.
  intros Hnd. eexists. split; [reflexivity|].
  apply normalize_unit_interval, tagsMatch_within, priceMatch_within,
    categoryMatch_within; [exact Hnd|].
  unfold within. simpl. lra.
Qed.

(** C1 (defect witnessed). The documented range of
    [calculateSimilarityScore] is 0-1, yet with preferences
    [{tags: ["a"]}] and a product whose tags are [["a", "a"]] both copies
    pass the filter: the score is [(2/1 × 0.3) / 0.3 = 2]. *)
Theorem calculateSimilarityScore_duplicate_tags :
  ∃ s, calculateSimilarityScore (Some (tagsOnly ["a"])) (sampleProduct "p1" ["a"; "a"])
       = Return s
       ∧ (s == 2)%Q ∧ ¬ (s <= 1)%Q.
Proof.
  eexists. split; [reflexivity|]. vm_compute. split; [reflexivity|].
  intros H. apply H. reflexivity.
Qed.

(** C3 (defect witnessed). With [product.tags = ["a", "a"]] and
    [preferences.tags = ["a"]] the tags check adds [0.6] to the score,
    twice its weight, while the set-intersection formula of the claim
    gives [0.3]: the defect of C1, seen at the tag component. *)
Lemma tagComponent_counts_duplicates :
  let added := (tagsMatch (tagsOnly ["a"]) (sampleProduct "p1" ["a"; "a"]) (0%Q, 0%Q)).1 in
  (added == 0.6)%Q
  ∧ (tagComponent_spec ["a"] ["a"; "a"] == 0.3)%Q
  ∧ ¬ (added == 0 + tagComponent_spec ["a"] ["a"; "a"])%Q.
Proof.
  vm_compute. repeat split; congruence.
Qed.

(** On tag lists without repeats the tags check adds the
    set-intersection credit
    [(|product.tags ∩ preferences.tags| / max(|preferences.tags|,1)) × 0.3]
    to the score and [0.3] to the maximum. *)
Lemma tagsMatch_without_repeats up product prefTags productTags score maxScore :
  Preferences.tags up = Some prefTags →
  prefTags ≠ [] →
  Product.tags product = Some productTags →
  NoDup productTags →
  tagsMatch up product (score, maxScore)
  = ((score + tagComponent_spec prefTags productTags)%Q, (maxScore + 0.3)%Q).
Proof.
  intros Hpref Hne Hprod Hnd.
  unfold tagsMatch. rewrite Hpref, Hprod.
  destruct prefTags as [|t ts]; [done|].
  unfold tagComponent, tagComponent_spec.
  by rewrite (matchingTags_length_size (t :: ts) productTags Hnd).
Qed.

(** C4 (as stated, refuted). With the preferences argument absent the
    first property access raises: nothing is returned. *)
Lemma calculateSimilarityScore_absent_preferences :
  calculateSimilarityScore None (sampleProduct "p1" ["a"]) = Throw TypeError
  ∧ ¬ (∃ s, calculateSimilarityScore None (sampleProduct "p1" ["a"]) = Return s).
Proof. split; [reflexivity|]. intros [s Hs]. discriminate Hs. Qed.

(** ** Array and query primitives *)

Lemma slice0_subseteq {A : Type} (n : Z) (arr : list A) : slice0 n arr ⊆ arr.
Proof. unfold slice0. destruct (0 <=? n); apply subseteq_take. Qed.

Lemma slice0_sublist {A : Type} (n : Z) (arr : list A) : slice0 n arr `sublist_of` arr.
Proof. unfold slice0. destruct (0 <=? n); apply sublist_take. Qed.

Lemma slice0_length {A : Type} (n : Z) (arr : list A) :
  0 ≤ n → Z.of_nat (length (slice0 n arr)) ≤ n.
Proof.
  intros Hn. unfold slice0. destruct (Z.leb_spec 0 n); [|lia].
  rewrite length_take. lia.
Qed.

Lemma store_limit_subseteq {A : Type} (n : Z) (docs : list A) : store_limit n docs ⊆ docs.
Proof. unfold store_limit. destruct (n =? 0); [done|apply subseteq_take]. Qed.

Lemma store_limit_length {A : Type} (n : Z) (docs : list A) :
  0 < n → Z.of_nat (length (store_limit n docs)) ≤ n.
Proof.
  intros Hn. unfold store_limit. destruct (Z.eqb_spec n 0); [lia|].
  rewrite length_take. lia.
Qed.

Section SortFacts.
Context {A : Type} (before : A → A → bool).

Lemma insert_sorted_Permutation (x : A) (l : list A) :
  insert_sorted before x l ≡ₚ x :: l.
Proof.
  induction l as [|y l IH]; simpl; [done|].
  destruct (before y x); [|done].
  rewrite IH. apply Permutation_swap.
Qed.

Lemma sort_by_Permutation (l : list A) : sort_by before l ≡ₚ l.
Proof.
  induction l as [|x l IH]; simpl; [done|].
  unfold sort_by in *. simpl. rewrite insert_sorted_Permutation. by rewrite IH.
Qed.
End SortFacts.

(** ** Strategy generators *)

(** Scoring against a present preferences object never raises. *)
Lemma mapM_score_fst (up : Preferences.t) (allProducts : list Product.t) :
  ∃ scoredProducts,
    mapM (λ product,
        score ← calculateSimilarityScore (Some up) product;
        Return (product, score)) allProducts = Return scoredProducts
    ∧ scoredProducts.*1 = allProducts.
Proof.
  induction allProducts as [|p l (scored & Hscored & Hfst)].
  - by exists [].
  - exists ((p, normalize (tagsMatch up p (priceMatch up p
                (categoryMatch up p (0%Q, 0%Q))))) :: scored).
    split.
    + cbn [mapM]. rewrite Hscored. reflexivity.
    + by rewrite fmap_cons, Hfst.
Qed.

(** One step of the error monad: binds on a settled result and the
    handler of a [try]. *)
Ltac run := cbn [mbind mret result_bind result_ret try_catch].

Lemma getContentBasedRecommendations_subseteq st userId limit user :
  users st !! userId = Some user →
  getContentBasedRecommendations st userId limit
  ⊆ filter (λ p, includes (userProductIds user) (Product._id p) = false) (products st).
Proof.
  intros Huser p.
  unfold getContentBasedRecommendations, getContentBasedRecommendations_try,
    User_findById, Product_find_nin, query.
  destruct (refuses st FindById); run; [by intros ?%elem_of_nil|].
  rewrite Huser. run.
  destruct (User.preferences user) as [up|]; run; [|by intros ?%elem_of_nil].
  destruct (refuses st FindProducts); run; [by intros ?%elem_of_nil|].
  destruct (mapM_score_fst up
              (filter (λ p, includes (userProductIds user) (Product._id p) = false)
                      (products st))) as (scored & -> & Hfst).
  run. intros Hp. rewrite <- Hfst.
  apply list_elem_of_fmap in Hp as (sp & -> & Hsp).
  apply list_elem_of_fmap_2.
  apply slice0_subseteq in Hsp. by rewrite sort_by_Permutation in Hsp.
Qed.

Lemma getContentBasedRecommendations_length st userId limit :
  0 ≤ limit →
  Z.of_nat (length (getContentBasedRecommendations st userId limit)) ≤ limit.
Proof.
  intros Hlimit.
  unfold getContentBasedRecommendations, getContentBasedRecommendations_try,
    User_findById, Product_find_nin, query.
  destruct (refuses st FindById); run; [simpl; lia|].
  destruct (users st !! userId) as [user|]; run; [|simpl; lia].
  destruct (User.preferences user) as [up|]; run; [|simpl; lia].
  destruct (refuses st FindProducts); run; [simpl; lia|].
  destruct (mapM_score_fst up
              (filter (λ p, includes (userProductIds user) (Product._id p) = false)
                      (products st))) as (scored & -> & _).
  run. rewrite length_fmap. by apply slice0_length.
Qed.

(** Every id collected from the neighbours is outside the user's own
    history. *)
Lemma addUnseen_fresh own (s : gset string) similarUser :
  (∀ id, id ∈ s → id ∉ own) →
  ∀ id, id ∈ addUnseen own s similarUser → id ∉ own.
Proof.
  unfold addUnseen.
  generalize ((User.productId <$> User.viewHistory similarUser)
              ++ (User.productId <$> User.purchases similarUser)).
  intros l. revert s. induction l as [|x l IH]; intros s Hs; simpl; [done|].
  apply IH. destruct (includes own x) eqn:Hx; [done|].
  intros id [->%elem_of_singleton|Hid]%elem_of_union; [|by apply Hs].
  rewrite <- includes_true. by rewrite Hx.
Qed.

Lemma similarUserProductIds_fresh own similarUsers :
  ∀ id, id ∈ foldl (addUnseen own) ∅ similarUsers → id ∉ own.
Proof.
  assert (H : ∀ (s : gset string), (∀ id, id ∈ s → id ∉ own) →
              ∀ id, id ∈ foldl (addUnseen own) s similarUsers → id ∉ own).
  { induction similarUsers as [|u l IH]; intros s Hs; simpl; [done|].
    apply IH. by apply addUnseen_fresh. }
  apply H. intros id Hid. set_solver.
Qed.

Lemma getCollaborativeRecommendations_fresh st userId limit user p :
  users st !! userId = Some user →
  p ∈ getCollaborativeRecommendations st userId limit →
  Product._id p ∉ userProductIds user.
Proof.
  intros Huser.
  unfold getCollaborativeRecommendations, getCollaborativeRecommendations_try,
    User_findById, User_find_similar, Product_find_in, query.
  destruct (refuses st FindById); simpl; [by intros ?%elem_of_nil|].
  rewrite Huser. simpl.
  destruct (refuses st FindUsers); simpl; [by intros ?%elem_of_nil|].
  destruct (refuses st FindProducts); simpl; [by intros ?%elem_of_nil|].
  intros Hp%store_limit_subseteq.
  apply list_elem_of_filter in Hp as [Hp _].
  apply includes_true, elem_of_elements in Hp.
  by apply similarUserProductIds_fresh in Hp.
Qed.

Lemma getCollaborativeRecommendations_length st userId limit :
  0 < limit →
  Z.of_nat (length (getCollaborativeRecommendations st userId limit)) ≤ limit.
Proof.
  intros Hlimit.
  unfold getCollaborativeRecommendations, getCollaborativeRecommendations_try,
    User_findById, User_find_similar, Product_find_in, query.
  destruct (refuses st FindById); simpl; [lia|].
  destruct (users st !! userId) as [user|]; simpl; [|lia].
  destruct (refuses st FindUsers); simpl; [lia|].
  destruct (refuses st FindProducts); simpl; [lia|].
  by apply store_limit_length.
Qed.

Lemma getTrendingProducts_length st limit :
  0 < limit → Z.of_nat (length (getTrendingProducts st limit)) ≤ limit.
Proof.
  intros Hlimit. unfold getTrendingProducts, Product_find_trending, query.
  destruct (refuses st FindProducts); simpl; [lia|].
  by apply store_limit_length.
Qed.

(** C4 (amended). For every product the score is [0] when the
    preferences argument is an object with no applicable sub-field; when
    the argument is absent the call raises a [TypeError] instead of
    returning 0. *)
Theorem calculateSimilarityScore_no_applicable_preferences up product :
  (noApplicablePreferences up = true →
   calculateSimilarityScore (Some up) product = Return 0%Q)
  ∧ calculateSimilarityScore None product = Throw TypeError.
Proof.
  split; [|reflexivity].
  unfold noApplicablePreferences, calculateSimilarityScore, tagsMatch,
    priceMatch, categoryMatch.
  destruct (Preferences.categories up) as [[|? ?]|],
           (Preferences.priceRange up),
           (Preferences.tags up) as [[|? ?]|]; simpl; done.
Qed.

Lemma calculateSimilarityScore_no_applicable_preferences_witness :
  calculateSimilarityScore (Some noPreferences) (sampleProduct "p1" ["a"]) = Return 0%Q.
Proof.
  apply (proj1 (calculateSimilarityScore_no_applicable_preferences
                  noPreferences (sampleProduct "p1" ["a"]))).
  reflexivity.
Defined.

(** C5. For an existing user, no product whose id occurs in the user's
    view history or purchase history is returned by the content-based
    generator or by the collaborative generator, whatever its score. *)
Theorem history_excluded st userId limit user productId :
  users st !! userId = Some user →
  productId ∈ (User.productId <$> User.viewHistory user)
  ∨ productId ∈ (User.productId <$> User.purchases user) →
  (productId ∉ (Product._id <$> getContentBasedRecommendations st userId limit))
  ∧ (productId ∉ (Product._id <$> getCollaborativeRecommendations st userId limit)).
Proof.
  intros Huser Hhist.
  assert (Hin : productId ∈ userProductIds user)
    by (unfold userProductIds; apply elem_of_app; exact Hhist).
  split; intros (p & -> & Hp)%list_elem_of_fmap.
  - apply (getContentBasedRecommendations_subseteq _ _ _ _ Huser) in Hp.
    apply list_elem_of_filter in Hp as [Hp _].
    apply includes_true in Hin. congruence.
  - by apply (getCollaborativeRecommendations_fresh _ _ _ _ _ Huser) in Hp.
Qed.

Lemma history_excluded_witness :
  ("p1" ∉ (Product._id <$> getContentBasedRecommendations sampleStore "u1" 5))
  ∧ ("p1" ∉ (Product._id <$> getCollaborativeRecommendations sampleStore "u1" 5)).
Proof.
  apply (history_excluded sampleStore "u1" 5 (plainUser (Some (tagsOnly ["a"])) ["p1"] []) "p1").
  - reflexivity.
  - left. apply (bool_decide_unpack _). vm_compute. exact I.
Defined.

(** ** Blender *)

Lemma ids_cons p l : ids (p :: l) = {[Product._id p]} ∪ ids l.
Proof. reflexivity. Qed.

Lemma ids_app l k : ids (l ++ k) = ids l ∪ ids k.
Proof. unfold ids. by rewrite fmap_app, list_to_set_app_L. Qed.

Lemma elem_of_ids x l : x ∈ ids l ↔ x ∈ (Product._id <$> l).
Proof. unfold ids. apply elem_of_list_to_set. Qed.

(** The first two passes: the loop computes [firstSeen]. *)
Lemma foldl_addProduct seenIds combined l :
  foldl addProduct (seenIds, combined) l
  = (ids (firstSeen seenIds l) ∪ seenIds, combined ++ firstSeen seenIds l).
Proof.
  revert seenIds combined. induction l as [|p l IH]; intros seenIds combined.
  - simpl. f_equal; [set_solver|by rewrite app_nil_r].
  - cbn [foldl firstSeen]. unfold addProduct at 2.
    destruct (bool_decide (Product._id p ∈ seenIds)); cbn [negb].
    + apply IH.
    + rewrite IH, ids_cons. f_equal; [set_solver|].
      by rewrite <- app_assoc.
Qed.

(** The trending pass: once [limit] is reached nothing more is added. *)
Lemma foldl_addTrending limit seenIds combined l :
  (foldl (addTrending limit) (seenIds, combined) l).2
  = combined
    ++ take (Z.to_nat (limit - Z.of_nat (length combined))) (firstSeen seenIds l).
Proof.
  revert seenIds combined. induction l as [|p l IH]; intros seenIds combined.
  - simpl. by rewrite take_nil, app_nil_r.
  - cbn [foldl firstSeen]. unfold addTrending at 2.
    destruct (bool_decide (Product._id p ∈ seenIds)); cbn [negb andb].
    + apply IH.
    + destruct (Z.ltb_spec (Z.of_nat (length combined)) limit) as [Hlt|Hge].
      * rewrite IH, length_app. simpl.
        replace (Z.to_nat (limit - Z.of_nat (length combined)))
          with (S (Z.to_nat (limit - Z.of_nat (length combined + 1)%nat))) by lia.
        by rewrite <- app_assoc.
      * rewrite IH.
        replace (Z.to_nat (limit - Z.of_nat (length combined))) with 0%nat by lia.
        by rewrite !take_0.
Qed.

(** The loops of lines 227-255 refine the specification's merge. *)
Lemma combine_merge_spec limit collaborative contentBased trending :
  combine limit collaborative contentBased trending
  = merge_spec limit collaborative contentBased trending.
Proof.
  unfold combine, merge_spec.
  rewrite foldl_addProduct, foldl_addProduct, foldl_addTrending.
  rewrite !app_nil_l.
  replace (ids (firstSeen ∅ collaborative) ∪ ∅)
    with (ids (firstSeen ∅ collaborative)) by set_solver.
  rewrite ids_app.
  by rewrite (comm_L (∪) (ids (firstSeen (ids (firstSeen ∅ collaborative)) contentBased))).
Qed.

Lemma firstSeen_app added l k :
  firstSeen added (l ++ k)
  = firstSeen added l ++ firstSeen (ids (firstSeen added l) ∪ added) k.
Proof.
  revert added. induction l as [|p l IH]; intros added.
  - simpl. f_equal. set_solver.
  - cbn [app firstSeen].
    destruct (bool_decide (Product._id p ∈ added)); [apply IH|].
    rewrite IH, ids_cons. simpl. do 3 f_equal. set_solver.
Qed.

Lemma firstSeen_fresh added l x :
  x ∈ (Product._id <$> firstSeen added l) → x ∉ added.
Proof.
  revert added. induction l as [|p l IH]; intros added; simpl.
  - by intros ?%elem_of_nil.
  - destruct (bool_decide_reflect (Product._id p ∈ added)) as [|Hp]; [apply IH|].
    rewrite fmap_cons. intros [->|Hx%IH]%elem_of_cons; [done|set_solver].
Qed.

Lemma firstSeen_NoDup added l : NoDup (Product._id <$> firstSeen added l).
Proof.
  revert added. induction l as [|p l IH]; intros added; simpl.
  - apply NoDup_nil_2.
  - destruct (bool_decide (Product._id p ∈ added)); [apply IH|].
    rewrite fmap_cons. apply NoDup_cons. split; [|apply IH].
    intros Hp%firstSeen_fresh. set_solver.
Qed.

(** Without the stop rule the merge is the first-seen de-duplication of
    the three lists in priority order. *)
Lemma firstSeen_priority collaborative contentBased trending :
  firstSeen ∅ (collaborative ++ contentBased ++ trending)
  = (firstSeen ∅ collaborative
     ++ firstSeen (ids (firstSeen ∅ collaborative)) contentBased)
    ++ firstSeen (ids (firstSeen ∅ collaborative
                       ++ firstSeen (ids (firstSeen ∅ collaborative)) contentBased))
                 trending.
Proof.
  rewrite !firstSeen_app, ids_app, <- app_assoc.
  replace (ids (firstSeen ∅ collaborative) ∪ ∅)
    with (ids (firstSeen ∅ collaborative)) by set_solver.
  by rewrite (comm_L (∪) (ids (firstSeen (ids (firstSeen ∅ collaborative)) contentBased))).
Qed.

Lemma merge_spec_sublist limit collaborative contentBased trending :
  merge_spec limit collaborative contentBased trending
  `sublist_of` firstSeen ∅ (collaborative ++ contentBased ++ trending).
Proof.
  rewrite firstSeen_priority. unfold merge_spec.
  apply sublist_app; [done|apply sublist_take].
Qed.

Lemma take_merge_spec limit collaborative contentBased trending :
  0 ≤ limit →
  slice0 limit (merge_spec limit collaborative contentBased trending)
  = take (Z.to_nat limit) (firstSeen ∅ (collaborative ++ contentBased ++ trending)).
Proof.
  intros Hlimit. rewrite firstSeen_priority. unfold merge_spec, slice0.
  destruct (Z.leb_spec 0 limit); [|lia].
  rewrite !(take_app (_ ++ _)), take_take. do 2 f_equal. lia.
Qed.

Lemma absent_Some (userId : string) : userId ≠ "" → absent (Some userId) = false.
Proof. intros Hne. simpl. by apply bool_decide_eq_false. Qed.

Lemma blend_resolved contentBasedGen collaborativeGen trendingGen
    (userId : string) limit cb c t :
  userId ≠ "" →
  contentBasedGen userId (limit / 2) = Return cb →
  collaborativeGen userId (limit / 2) = Return c →
  trendingGen (limit / 3) = Return t →
  blend contentBasedGen collaborativeGen trendingGen (Some userId) limit
  = {| recommendations := slice0 limit (combine limit c cb t);
       contentBased := Some cb; collaborative := Some c; trending := t |}.
Proof.
  intros Hne Hcb Hc Ht. unfold blend, blend_try.
  rewrite (absent_Some _ Hne). cbn [default from_option id]. by rewrite Hcb, Hc, Ht.
Qed.

Lemma getRecommendations_resolved st (userId : string) limit :
  userId ≠ "" →
  getRecommendations st (Some userId) limit
  = {| recommendations :=
         slice0 limit
           (combine limit
              (getCollaborativeRecommendations st userId (limit / 2))
              (getContentBasedRecommendations st userId (limit / 2))
              (getTrendingProducts st (limit / 3)));
       contentBased := Some (getContentBasedRecommendations st userId (limit / 2));
       collaborative := Some (getCollaborativeRecommendations st userId (limit / 2));
       trending := getTrendingProducts st (limit / 3) |}.
Proof. intros Hne. unfold getRecommendations. by apply blend_resolved. Qed.

(** C2. With a user id, the recommendations are the three strategy
    lists merged in the order collaborative, content-based, trending,
    each product added only if its id was not already added, the trending
    pass stopping once [limit] entries are combined, and the result cut
    to [limit]; for a non-negative [limit] that is the first [limit]
    entries of the first-seen de-duplication of the three lists in
    priority order. For collaborative [[P1,P2]], content-based [[P2,P3]],
    trending [[P3,P4]] and limit 3 the recommendations are [[P1,P2,P3]]. *)
Theorem blend_priority_merge contentBasedGen collaborativeGen trendingGen
    st (userId : string) limit cb c t :
  userId ≠ "" →
  contentBasedGen userId (limit / 2) = Return cb →
  collaborativeGen userId (limit / 2) = Return c →
  trendingGen (limit / 3) = Return t →
  let r := blend contentBasedGen collaborativeGen trendingGen (Some userId) limit in
  recommendations r = slice0 limit (merge_spec limit c cb t)
  ∧ (0 ≤ limit →
     recommendations r = take (Z.to_nat limit) (firstSeen ∅ (c ++ cb ++ t)))
  ∧ recommendations (getRecommendations st (Some userId) limit)
    = slice0 limit
        (merge_spec limit
           (getCollaborativeRecommendations st userId (limit / 2))
           (getContentBasedRecommendations st userId (limit / 2))
           (getTrendingProducts st (limit / 3)))
  ∧ recommendations
      (blend (resolving [P2; P3]) (resolving [P1; P2]) (λ _, Return [P3; P4])
             (Some "u1") 3)
    = [P1; P2; P3].
Proof.
  intros Hne Hcb Hc Ht r. subst r.
  rewrite (blend_resolved _ _ _ _ _ _ _ _ Hne Hcb Hc Ht). cbn [recommendations].
  rewrite combine_merge_spec. split; [done|].
  split; [intros Hlimit; by apply take_merge_spec|].
  split; [|vm_compute; reflexivity].
  rewrite (getRecommendations_resolved _ _ _ Hne). cbn [recommendations].
  by rewrite combine_merge_spec.
Qed.

Lemma blend_priority_merge_witness :
  let r := blend (resolving [P2; P3]) (resolving [P1; P2]) (λ _, Return [P3; P4])
                 (Some "u1") 3 in
  recommendations r = slice0 3 (merge_spec 3 [P1; P2] [P2; P3] [P3; P4])
  ∧ recommendations r = [P1; P2; P3].
Proof.
  pose proof (blend_priority_merge
                (resolving [P2; P3]) (resolving [P1; P2]) (λ _, Return [P3; P4])
                sampleStore "u1" 3 [P2; P3] [P1; P2] [P3; P4]) as H.
  destruct H as (Hmerge & _ & _ & Hexample).
  - discriminate.
  - reflexivity.
  - reflexivity.
  - reflexivity.
  - split; [exact Hmerge|exact Hexample].
Defined.

(** C7 (as stated, refuted). For [limit = -2] the content-based
    generator is called with [-1] and [slice(0, -1)] keeps two of the
    three candidates; for [limit = 1] the trending generator is called
    with [0], which the store reads as no limit, and all four products
    come back. *)
Lemma sub_limit_bound_fails :
  (∃ l, contentBased (getRecommendations sampleStore (Some "u1") (-2)) = Some l
        ∧ length l = 2%nat
        ∧ ¬ (Z.of_nat (length l) ≤ (-2) / 2))
  ∧ length (trending (getRecommendations sampleStore (Some "u1") 1)) = 4%nat
  ∧ ¬ (Z.of_nat (length (trending (getRecommendations sampleStore (Some "u1") 1)))
       ≤ 1 / 3).
Proof.
  split.
  - eexists. split; [reflexivity|]. split; [reflexivity|]. vm_compute. congruence.
  - split; [reflexivity|]. vm_compute. congruence.
Qed.

(** C7 (amended). With a user id the content-based and the
    collaborative generator are called with [floor(limit/2)] and the
    trending generator with [floor(limit/3)], and the response carries
    all three results. The content-based list has at most [floor(limit/2)]
    entries for every [limit ≥ 0]; the collaborative list has at most
    [floor(limit/2)] entries when [limit ≥ 2] and the trending list at
    most [floor(limit/3)] entries when [limit ≥ 3]. *)
Theorem sub_limits st (userId : string) limit :
  userId ≠ "" →
  let r := getRecommendations st (Some userId) limit in
  contentBased r = Some (getContentBasedRecommendations st userId (limit / 2))
  ∧ collaborative r = Some (getCollaborativeRecommendations st userId (limit / 2))
  ∧ trending r = getTrendingProducts st (limit / 3)
  ∧ (0 ≤ limit →
     Z.of_nat (length (getContentBasedRecommendations st userId (limit / 2)))
     ≤ limit / 2)
  ∧ (2 ≤ limit →
     Z.of_nat (length (getCollaborativeRecommendations st userId (limit / 2)))
     ≤ limit / 2)
  ∧ (3 ≤ limit →
     Z.of_nat (length (getTrendingProducts st (limit / 3))) ≤ limit / 3).
Proof.
  intros Hne r. subst r. rewrite (getRecommendations_resolved _ _ _ Hne).
  cbn [contentBased collaborative trending].
  repeat split; intros Hlimit.
  - apply getContentBasedRecommendations_length. by apply Z.div_pos.
  - apply getCollaborativeRecommendations_length. by apply Z.div_str_pos.
  - apply getTrendingProducts_length. by apply Z.div_str_pos.
Qed.

Lemma sub_limits_witness :
  let r := getRecommendations sampleStore (Some "u1") 6 in
  contentBased r = Some (getContentBasedRecommendations sampleStore "u1" 3)
  ∧ collaborative r = Some (getCollaborativeRecommendations sampleStore "u1" 3)
  ∧ trending r = getTrendingProducts sampleStore 2
  ∧ Z.of_nat (length (getContentBasedRecommendations sampleStore "u1" 3)) ≤ 3
  ∧ Z.of_nat (length (getCollaborativeRecommendations sampleStore "u1" 3)) ≤ 3
  ∧ Z.of_nat (length (getTrendingProducts sampleStore 2)) ≤ 2.
Proof.
  destruct (sub_limits sampleStore "u1" 6) as (Hcb & Hc & Ht & Lcb & Lc & Lt).
  - discriminate.
  - exact (conj Hcb (conj Hc (conj Ht
      (conj (Lcb ltac:(lia)) (conj (Lc ltac:(lia)) (Lt ltac:(lia))))))).
Defined.



(** C9. With a user id, whatever the three generators resolve to -
    lists with repeated product ids included - no product id occurs
    twice in the merged recommendations: a repeat is dropped whether it
    comes from another list or from the same one. *)
Theorem recommendations_NoDup contentBasedGen collaborativeGen trendingGen
    (userId : string) limit :
  userId ≠ "" →
  NoDup (Product._id <$>
         recommendations
           (blend contentBasedGen collaborativeGen trendingGen (Some userId) limit)).
Proof.
  intros Hne.
  destruct (contentBasedGen userId (limit / 2)) as [cb|e] eqn:Hcb;
    [destruct (collaborativeGen userId (limit / 2)) as [c|e] eqn:Hc;
      [destruct (trendingGen (limit / 3)) as [t|e] eqn:Ht|]|].
  - rewrite (blend_resolved _ _ _ _ _ _ _ _ Hne Hcb Hc Ht). cbn [recommendations].
    rewrite combine_merge_spec.
    apply (sublist_NoDup _ (Product._id <$> firstSeen ∅ (c ++ cb ++ t)));
      [apply firstSeen_NoDup|].
    apply fmap_sublist. etrans; [apply slice0_sublist|apply merge_spec_sublist].
  - unfold blend, blend_try. rewrite (absent_Some _ Hne). cbn [default from_option id].
    rewrite Hcb, Hc, Ht. apply NoDup_nil_2.
  - unfold blend, blend_try. rewrite (absent_Some _ Hne). cbn [default from_option id].
    rewrite Hcb, Hc. apply NoDup_nil_2.
  - unfold blend, blend_try. rewrite (absent_Some _ Hne). cbn [default from_option id].
    rewrite Hcb. apply NoDup_nil_2.
Qed.

Lemma recommendations_NoDup_witness :
  NoDup (Product._id <$>
         recommendations
           (blend (resolving [P2; P2; P3]) (resolving [P1; P1; P2])
                  (λ _, Return [P3; P4; P4]) (Some "u1") 10)).
Proof.
  apply (recommendations_NoDup (resolving [P2; P2; P3]) (resolving [P1; P1; P2])
           (λ _, Return [P3; P4; P4]) "u1" 10).
  discriminate.
Defined.

(** ** History mutators *)

Lemma store_eta st :
  {| users := users st; products := products st; refuses := refuses st |} = st.
Proof. by destruct st. Qed.

Lemma alter_absent (f : User.t → User.t) (userId : string) (m : gmap string User.t) :
  m !! userId = None → alter f userId m = m.
Proof.
  intros Hnone. apply map_eq. intros other.
  destruct (decide (userId = other)) as [<-|Hne].
  - by rewrite lookup_alter_eq, Hnone.
  - by rewrite lookup_alter_ne.
Qed.

(** The call either leaves the store alone - an id that cannot be cast,
    a rejected call - or applies the cast update to the user's document. *)
Lemma findByIdAndUpdate_cases st userId update :
  try_catch (User_findByIdAndUpdate st userId update) st = st
  ∨ ∃ change,
      castUpdate update = Return change
      ∧ try_catch (User_findByIdAndUpdate st userId update) st
        = {| users := alter change userId (users st);
             products := products st;
             refuses := refuses st |}.
Proof.
  unfold User_findByIdAndUpdate, castObjectId, query.
  destruct (isObjectId userId); cbn [mbind result_bind try_catch]; [|by left].
  destruct (castUpdate update) as [change|];
    cbn [mbind result_bind try_catch]; [|by left].
  destruct (refuses st FindByIdAndUpdate); cbn [try_catch]; [by left|].
  right. by exists change.
Qed.

Lemma findByIdAndUpdate_applied st userId update change :
  isObjectId userId = true →
  castUpdate update = Return change →
  refuses st FindByIdAndUpdate = false →
  try_catch (User_findByIdAndUpdate st userId update) st
  = {| users := alter change userId (users st);
       products := products st;
       refuses := refuses st |}.
Proof.
  intros Hid Hcast Hup. unfold User_findByIdAndUpdate, castObjectId, query.
  rewrite Hid. cbn [mbind result_bind]. rewrite Hcast. cbn [mbind result_bind].
  by rewrite Hup.
Qed.

Lemma findByIdAndUpdate_skipped st userId update :
  isObjectId userId = false
  ∨ (∃ e, castUpdate update = Throw e)
  ∨ refuses st FindByIdAndUpdate = true →
  try_catch (User_findByIdAndUpdate st userId update) st = st.
Proof.
  unfold User_findByIdAndUpdate, castObjectId, query.
  destruct (isObjectId userId); cbn [mbind result_bind try_catch]; [|done].
  destruct (castUpdate update) as [change|];
    cbn [mbind result_bind try_catch]; [|done].
  destruct (refuses st FindByIdAndUpdate); cbn [try_catch]; [done|].
  intros [?|[[e ?]|?]]; done.
Qed.

Lemma castUpdate_push_rejected productId now :
  isObjectId productId = false →
  castUpdate (PushViewHistory productId now) = Throw CastError
  ∧ castUpdate (PushPurchases productId now) = Throw CastError.
Proof. intros Hid. unfold castUpdate, castObjectId. by rewrite Hid. Qed.

Lemma update_frame st userId update :
  products (try_catch (User_findByIdAndUpdate st userId update) st) = products st
  ∧ refuses (try_catch (User_findByIdAndUpdate st userId update) st) = refuses st
  ∧ ∀ other, other ≠ userId →
      users (try_catch (User_findByIdAndUpdate st userId update) st) !! other
      = users st !! other.
Proof.
  destruct (findByIdAndUpdate_cases st userId update) as [-> | (change & _ & ->)];
    [done|].
  cbn [users products refuses]. repeat split.
  intros other Hne. by rewrite lookup_alter_ne.
Qed.

Lemma castUpdate_view productId now :
  isObjectId productId = true →
  castUpdate (PushViewHistory productId now) = Return (pushView productId now).
Proof. intros Hid. unfold castUpdate, castObjectId. by rewrite Hid. Qed.

Lemma castUpdate_purchase productId now :
  isObjectId productId = true →
  castUpdate (PushPurchases productId now) = Return (pushPurchase productId now).
Proof. intros Hid. unfold castUpdate, castObjectId. by rewrite Hid. Qed.

Lemma castUpdate_view_inv productId now change :
  castUpdate (PushViewHistory productId now) = Return change →
  change = pushView productId now.
Proof.
  unfold castUpdate, castObjectId. destruct (isObjectId productId); [|done].
  cbn [mbind result_bind]. congruence.
Qed.

Lemma castUpdate_purchase_inv productId now change :
  castUpdate (PushPurchases productId now) = Return change →
  change = pushPurchase productId now.
Proof.
  unfold castUpdate, castObjectId. destruct (isObjectId productId); [|done].
  cbn [mbind result_bind]. congruence.
Qed.




(** * Further properties *)

(** ** Similarity scorer *)

Lemma calculateSimilarityScore_scoreOf up product :
  calculateSimilarityScore (Some up) product = Return (scoreOf up product).
Proof. reflexivity. Qed.

(** X1. For present preferences and a product whose tag list repeats no
    entry, [calculateSimilarityScore] returns a score between 0 and 1. *)
Theorem score_unit_interval up product :
  (∀ productTags, Product.tags product = Some productTags → NoDup productTags) →
  calculateSimilarityScore (Some up) product = Return (scoreOf up product)
  ∧ (0 <= scoreOf up product)%Q ∧ (scoreOf up product <= 1)%Q.
Proof.
  intros Hnd. split; [reflexivity|].
  apply normalize_unit_interval, tagsMatch_within, priceMatch_within,
    categoryMatch_within; [exact Hnd|].
  unfold within. simpl. lra.
Qed.

Lemma score_unit_interval_witness :
  (0 <= scoreOf everything P2)%Q ∧ (scoreOf everything P2 <= 1)%Q.
Proof.
  apply (score_unit_interval everything P2).
  intros productTags [= <-]. apply (bool_decide_unpack _). vm_compute. exact I.
Defined.

(** X2. Whatever the product's tags - repeated entries included - the
    score returned for present preferences is never negative. *)
Theorem score_nonneg up product :
  ∃ s, calculateSimilarityScore (Some up) product = Return s ∧ (0 <= s)%Q.
Proof.
  exists (scoreOf up product). split; [reflexivity|].
  unfold scoreOf.
  assert (Hc : ∀ a, (0 <= a.1)%Q → (0 <= (categoryMatch up product a).1)%Q).
  { intros [s m]. unfold categoryMatch. simpl. intros ?.
    destruct (Preferences.categories up) as [[|? ?]|]; simpl; [lra| |lra].
    destruct (includes _ _); simpl; lra. }
  assert (Hp : ∀ a, (0 <= a.1)%Q → (0 <= (priceMatch up product a).1)%Q).
  { intros [s m]. unfold priceMatch. simpl. intros ?.
    destruct (Preferences.priceRange up); simpl; [|lra].
    destruct (_ && _); simpl; lra. }
  assert (Ht : ∀ a, (0 <= a.1)%Q → (0 <= (tagsMatch up product a).1)%Q).
  { intros [s m]. unfold tagsMatch. simpl. intros ?.
    destruct (Preferences.tags up) as [[|t ts]|]; simpl; [lra| |lra].
    destruct (Product.tags product) as [productTags|]; simpl; [|lra].
    pose proof (tagComponent_nonneg (t :: ts) productTags). lra. }
  assert (Hn : ∀ a, (0 <= a.1)%Q → (0 <= normalize a)%Q).
  { intros [s m]. unfold normalize. simpl. intros ?.
    destruct (Qlt_le_dec 0 m) as [Hpos|_]; [|lra].
    apply Qle_shift_div_l; [exact Hpos|]. lra. }
  apply Hn, Ht, Hp, Hc. simpl. lra.
Qed.

(** X3. With a single applicable criterion the score is all or nothing:
    preferences that only list categories give 1 to a product of a
    listed category and 0 to any other; preferences that only give a
    price range give 1 to a product whose price earns the credit and 0
    to any other. *)
Theorem score_single_criterion up product :
  (Preferences.tags up = None ∨ Preferences.tags up = Some []) →
  (∀ categories,
     Preferences.categories up = Some categories → categories ≠ [] →
     Preferences.priceRange up = None →
     (scoreOf up product
      == if includes categories (Product.category product) then 1 else 0)%Q)
  ∧ (∀ range,
       Preferences.priceRange up = Some range →
       (Preferences.categories up = None ∨ Preferences.categories up = Some []) →
       (scoreOf up product == if priceInRange range product then 1 else 0)%Q).
Proof.
  intros Htags. split.
  - intros categories Hcat Hne Hprice.
    unfold scoreOf, tagsMatch, priceMatch, categoryMatch.
    rewrite Hcat, Hprice. destruct categories as [|c cs]; [done|].
    destruct (includes (c :: cs) (Product.category product));
      destruct Htags as [-> | ->]; reflexivity.
  - intros range Hprice Hcat.
    unfold scoreOf, tagsMatch, priceMatch, categoryMatch, priceInRange.
    rewrite Hprice.
    destruct (js_ge _ _ && js_le _ _);
      destruct Hcat as [-> | ->]; destruct Htags as [-> | ->]; reflexivity.
Qed.

Lemma score_single_criterion_witness :
  (scoreOf audioOnly P1 == 1)%Q ∧ (scoreOf openRange P1 == 0)%Q.
Proof.
  split.
  - apply (proj1 (score_single_criterion audioOnly P1 (or_introl eq_refl))
             ["audio"]); [reflexivity|discriminate|reflexivity].
  - apply (proj2 (score_single_criterion openRange P1 (or_introl eq_refl))
             (Preferences.mkRange (Some 0%Q) None)); [reflexivity|by left].
Defined.

(** X4. A price range that lacks [min] or [max] is never matched: the
    price check raises the maximum by 0.3 and adds nothing to the score,
    whatever the product's price. *)
Theorem open_price_range_never_matches up product range score maxScore :
  Preferences.priceRange up = Some range →
  Preferences.min range = None ∨ Preferences.max range = None →
  priceInRange range product = false
  ∧ priceMatch up product (score, maxScore) = (score, (maxScore + 0.3)%Q).
Proof.
  intros Hprice Hopen.
  assert (Hfalse : priceInRange range product = false).
  { unfold priceInRange.
    destruct Hopen as [-> | ->]; simpl; [done|by rewrite andb_false_r]. }
  split; [exact Hfalse|].
  unfold priceMatch. rewrite Hprice.
  unfold priceInRange in Hfalse. by rewrite Hfalse.
Qed.

Lemma open_price_range_never_matches_witness :
  priceInRange (Preferences.mkRange (Some 0%Q) None) P1 = false
  ∧ priceMatch openRange P1 (0%Q, 0%Q) = (0%Q, (0 + 0.3)%Q).
Proof.
  apply (open_price_range_never_matches openRange P1
           (Preferences.mkRange (Some 0%Q) None) 0%Q 0%Q).
  - reflexivity.
  - by right.
Defined.

Lemma matchingTags_all (prefTags productTags : list string) :
  NoDup prefTags → NoDup productTags → prefTags ⊆ productTags →
  length (matchingTags prefTags productTags) = length prefTags.
Proof.
  intros Hpref Hprod Hsub. apply Permutation_length, NoDup_Permutation.
  - unfold matchingTags. by apply NoDup_filter.
  - exact Hpref.
  - intros tag. rewrite matchingTags_elem_of. split; [tauto|]. auto.
Qed.

Lemma normalize_full (score maxScore : Q) :
  (score == maxScore)%Q → (0 < maxScore)%Q → (normalize (score, maxScore) == 1)%Q.
Proof.
  intros Heq Hpos. unfold normalize.
  destruct (Qlt_le_dec 0 maxScore) as [_|Hle]; [|lra].
  rewrite Heq. apply Qmult_inv_r. lra.
Qed.

(** X5. A product that matches every criterion entering the maximum -
    preferred category, price within the range, every preferred tag
    among its tags - scores exactly 1; when no criterion applies the
    score is 0. *)
Theorem score_full_match up product :
  (fullyMatches up product → applies up product = true →
   (scoreOf up product == 1)%Q)
  ∧ (applies up product = false → scoreOf up product = 0%Q).
Proof.
  unfold fullyMatches, applies, scoreOf, tagsMatch, priceMatch, categoryMatch,
    priceInRange.
  split.
  - intros (Hcat & Hprice & Htags) Happ.
    assert (Htag : ∀ prefTags productTags,
               prefTags ≠ [] → NoDup prefTags → NoDup productTags →
               prefTags ⊆ productTags →
               (tagComponent prefTags productTags == 0.3)%Q).
    { intros prefTags productTags Hne H1 H2 H3. unfold tagComponent.
      rewrite (matchingTags_all _ _ H1 H2 H3).
      assert (Hlen : (0 < length prefTags)%nat)
        by (destruct prefTags; [done|simpl; lia]).
      rewrite Z.max_l by lia.
      assert (Hn : ¬ (inject_Z (Z.of_nat (length prefTags)) == 0)%Q).
      { unfold Qeq. simpl. lia. }
      unfold Qdiv. rewrite Qmult_inv_r by exact Hn. reflexivity. }
    destruct (Preferences.categories up) as [[|c cs]|];
      destruct (Preferences.priceRange up) as [range|];
      destruct (Preferences.tags up) as [[|t ts]|];
      destruct (Product.tags product) as [productTags|];
      simpl in Happ; try discriminate Happ;
      try rewrite Hcat; try rewrite Hprice;
      try (destruct Htags as (H1 & H2 & H3);
           pose proof (Htag (t :: ts) productTags ltac:(done) H1 H2 H3));
      apply normalize_full; lra.
  - intros Happ.
    destruct (Preferences.categories up) as [[|c cs]|];
      destruct (Preferences.priceRange up) as [range|];
      destruct (Preferences.tags up) as [[|t ts]|];
      destruct (Product.tags product) as [productTags|];
      simpl in Happ; try discriminate Happ; reflexivity.
Qed.

Lemma score_full_match_witness :
  (scoreOf everything P2 == 1)%Q ∧ scoreOf noPreferences P2 = 0%Q.
Proof.
  split.
  - apply (proj1 (score_full_match everything P2)); [|reflexivity].
    split; [reflexivity|]. split; [reflexivity|].
    split; [apply (bool_decide_unpack _); vm_compute; exact I|].
    split; [apply (bool_decide_unpack _); vm_compute; exact I|].
    apply (bool_decide_unpack _). vm_compute. exact I.
  - apply (proj2 (score_full_match noPreferences P2)). reflexivity.
Defined.

(** X6. A product without a [tags] field is scored as if the user had
    stated no tag preference: the tag check neither adds to the score
    nor to the maximum. *)
Theorem score_untagged_product up product :
  Product.tags product = None →
  calculateSimilarityScore (Some up) product
  = calculateSimilarityScore (Some (withoutTags up)) product.
Proof.
  intros Hnone. unfold calculateSimilarityScore. f_equal.
  unfold tagsMatch, priceMatch, categoryMatch, withoutTags. simpl.
  rewrite Hnone.
  destruct (Preferences.categories up) as [[|c cs]|];
    destruct (Preferences.priceRange up) as [range|];
    destruct (Preferences.tags up) as [[|t ts]|];
    repeat (match goal with |- context [if ?b then _ else _] => destruct b end);
    reflexivity.
Qed.

Lemma score_untagged_product_witness :
  calculateSimilarityScore (Some everything) untagged
  = calculateSimilarityScore (Some (withoutTags everything)) untagged.
Proof.
  apply (score_untagged_product everything untagged). reflexivity.
Defined.

(** ** Sorting *)

Section SortOrder.
Context {A : Type} (before : A → A → bool).
Hypothesis before_asym : ∀ x y, before x y = true → before y x = false.
Hypothesis precede_trans :
  ∀ x y z, may_precede before x y → may_precede before y z → may_precede before x z.

Lemma insert_sorted_StronglySorted (x : A) (l : list A) :
  StronglySorted (may_precede before) l →
  StronglySorted (may_precede before) (insert_sorted before x l).
Proof.
  induction l as [|y l IH]; intros Hl; simpl.
  - repeat constructor.
  - apply StronglySorted_cons in Hl as [Hy Hl].
    destruct (before y x) eqn:Hyx.
    + apply StronglySorted_cons. split; [|by apply IH].
      rewrite insert_sorted_Permutation. constructor; [|done].
      by apply before_asym.
    + apply StronglySorted_cons. split; [|by apply StronglySorted_cons].
      constructor; [done|].
      eapply Forall_impl; [exact Hy|]. intros z Hz.
      by apply (precede_trans x y z).
Qed.

Lemma sort_by_StronglySorted (l : list A) :
  StronglySorted (may_precede before) (sort_by before l).
Proof.
  induction l as [|x l IH]; [constructor|].
  by apply insert_sorted_StronglySorted.
Qed.

(** The first [n] entries of the sorted list outrank all the others. *)
Lemma take_sort_by_top (n : nat) (l : list A) (x y : A) :
  x ∈ take n (sort_by before l) → y ∈ l → y ∉ take n (sort_by before l) →
  may_precede before x y.
Proof.
  intros Hx Hy Hny.
  pose proof (sort_by_StronglySorted l) as Hsorted.
  rewrite <- (take_drop n (sort_by before l)) in Hsorted.
  apply (StronglySorted_app_1_elem_of _ _ _ _ _ Hsorted Hx).
  rewrite <- (sort_by_Permutation before), <- (take_drop n (sort_by before l)) in Hy.
  by apply elem_of_app in Hy as [?|?].
Qed.
End SortOrder.

Lemma insert_sorted_fmap {A B : Type} (f : A → B) (before : B → B → bool) x l :
  insert_sorted before (f x) (f <$> l)
  = f <$> insert_sorted (λ a b, before (f a) (f b)) x l.
Proof.
  induction l as [|y l IH]; csimpl; [done|].
  destruct (before (f y) (f x)); csimpl; [f_equal; apply IH|done].
Qed.

Lemma sort_by_fmap {A B : Type} (f : A → B) (before : B → B → bool) l :
  sort_by before (f <$> l) = f <$> sort_by (λ a b, before (f a) (f b)) l.
Proof.
  induction l as [|x l IH]; [done|].
  change (sort_by before (f <$> x :: l))
    with (insert_sorted before (f x) (sort_by before (f <$> l))).
  by rewrite IH, insert_sorted_fmap.
Qed.

Lemma slice0_fmap {A B : Type} (f : A → B) (n : Z) (l : list A) :
  slice0 n (f <$> l) = f <$> slice0 n l.
Proof. unfold slice0. rewrite length_fmap. by destruct (0 <=? n); rewrite fmap_take. Qed.

Lemma scores_higher_asym up x y :
  scores_higher up x y = true → scores_higher up y x = false.
Proof.
  unfold scores_higher. rewrite negb_true_iff, negb_false_iff, Qle_bool_iff.
  intros Hxy. destruct (Qle_bool (scoreOf up x) (scoreOf up y)) eqn:H; [done|].
  destruct (Qlt_le_dec (scoreOf up y) (scoreOf up x)) as [Hlt|Hle]; [lra|].
  apply Qle_bool_iff in Hle. congruence.
Qed.

Lemma may_precede_by_score up x y :
  may_precede (scores_higher up) x y ↔ by_score up x y.
Proof.
  unfold may_precede, scores_higher, by_score.
  by rewrite negb_false_iff, Qle_bool_iff.
Qed.

Lemma scores_higher_trans up x y z :
  may_precede (scores_higher up) x y → may_precede (scores_higher up) y z →
  may_precede (scores_higher up) x z.
Proof. rewrite !may_precede_by_score. unfold by_score. lra. Qed.

Lemma may_precede_by_popularity x y :
  may_precede trending_before x y ↔ by_popularity x y.
Proof.
  unfold may_precede, trending_before, by_popularity.
  rewrite orb_false_iff, andb_false_iff, negb_false_iff, Qle_bool_iff.
  rewrite Z.ltb_ge, Z.eqb_neq. split.
  - intros [Hle [Hne|Hq]]; [left; lia|].
    destruct (decide (Product.reviewCount x = Product.reviewCount y)); [by right|left; lia].
  - intros [Hlt|[Heq Hq]]; (split; [lia|]); [left; lia|by right].
Qed.

Lemma trending_before_asym x y :
  trending_before x y = true → trending_before y x = false.
Proof.
  intros Hxy. apply may_precede_by_popularity.
  unfold trending_before in Hxy. unfold by_popularity.
  apply orb_true_iff in Hxy as [Hlt%Z.ltb_lt|[Heq%Z.eqb_eq Hq%negb_true_iff]%andb_true_iff];
    [by left|right].
  split; [done|].
  destruct (Qlt_le_dec (Product.rating x) (Product.rating y)) as [Hlt|Hle]; [|done].
  assert (Qle_bool (Product.rating x) (Product.rating y) = true)
    by (apply Qle_bool_iff; lra).
  congruence.
Qed.

Lemma trending_before_trans x y z :
  may_precede trending_before x y → may_precede trending_before y z →
  may_precede trending_before x z.
Proof.
  rewrite !may_precede_by_popularity. unfold by_popularity.
  intros [?|[? ?]] [?|[? ?]]; [left; lia|left; lia|left; lia|right].
  split; [lia|lra].
Qed.

(** ** Content-based generator *)

Lemma mapM_score (up : Preferences.t) (allProducts : list Product.t) :
  mapM (λ product,
      score ← calculateSimilarityScore (Some up) product;
      Return (product, score)) allProducts
  = Return ((λ product, (product, scoreOf up product)) <$> allProducts).
Proof.
  induction allProducts as [|p l IH]; [done|].
  cbn [mapM]. rewrite IH. reflexivity.
Qed.

(** Closed form of the generator when the store answers. *)
Lemma getContentBasedRecommendations_ranked st userId limit user up :
  users st !! userId = Some user →
  User.preferences user = Some up →
  refuses st FindById = false →
  refuses st FindProducts = false →
  getContentBasedRecommendations st userId limit
  = slice0 limit (sort_by (scores_higher up) (unseen st user)).
Proof.
  intros Huser Hpref Hfind Hproducts.
  unfold getContentBasedRecommendations, getContentBasedRecommendations_try,
    User_findById, Product_find_nin, query.
  rewrite Hfind, Hproducts, Huser. run. rewrite Hpref. run.
  rewrite mapM_score. run.
  change (sort_by score_before ((λ product, (product, scoreOf up product))
                                <$> filter _ (products st)))
    with (sort_by (λ a b : Product.t * Q, negb (Qle_bool a.2 b.2))
            ((λ product, (product, scoreOf up product)) <$> unseen st user)).
  rewrite (sort_by_fmap (λ product, (product, scoreOf up product))).
  rewrite slice0_fmap, <- list_fmap_compose.
  change (sort_by _ (unseen st user)) with (sort_by (scores_higher up) (unseen st user)).
  by rewrite list_fmap_id.
Qed.

Lemma getContentBasedRecommendations_cases st userId limit user up :
  users st !! userId = Some user →
  User.preferences user = Some up →
  getContentBasedRecommendations st userId limit = []
  ∨ getContentBasedRecommendations st userId limit
    = slice0 limit (sort_by (scores_higher up) (unseen st user)).
Proof.
  intros Huser Hpref.
  destruct (refuses st FindById) eqn:Hfind;
    [|destruct (refuses st FindProducts) eqn:Hproducts].
  - left. unfold getContentBasedRecommendations, getContentBasedRecommendations_try,
      User_findById, query. by rewrite Hfind.
  - left. unfold getContentBasedRecommendations, getContentBasedRecommendations_try,
      User_findById, Product_find_nin, query.
    rewrite Hfind, Hproducts, Huser. run. by rewrite Hpref.
  - right. by apply getContentBasedRecommendations_ranked.
Qed.

Lemma slice0_take {A : Type} (n : Z) (l : list A) : ∃ k, slice0 n l = take k l.
Proof. unfold slice0. destruct (0 <=? n); eauto. Qed.

(** X7. The content-based list is ranked: each returned product scores
    at least as high against the user's preferences as every product
    returned after it. *)
Theorem content_based_ranked st userId limit user up :
  users st !! userId = Some user →
  User.preferences user = Some up →
  StronglySorted (by_score up) (getContentBasedRecommendations st userId limit).
Proof.
  intros Huser Hpref.
  destruct (getContentBasedRecommendations_cases st userId limit user up Huser Hpref)
    as [-> | ->]; [constructor|].
  destruct (slice0_take limit (sort_by (scores_higher up) (unseen st user))) as [k ->].
  pose proof (sort_by_StronglySorted (scores_higher up)
                (scores_higher_asym up) (scores_higher_trans up) (unseen st user))
    as Hsorted.
  rewrite <- (take_drop k (sort_by _ _)) in Hsorted.
  apply StronglySorted_app_1_l in Hsorted.
  clear -Hsorted. induction Hsorted as [|x l _ IH Hx]; constructor; [done|].
  eapply Forall_impl; [exact Hx|]. intros y. apply may_precede_by_score.
Qed.

Lemma content_based_ranked_witness :
  StronglySorted (by_score (tagsOnly ["a"]))
    (getContentBasedRecommendations sampleStore "u1" 5).
Proof.
  apply (content_based_ranked sampleStore "u1" 5
           (plainUser (Some (tagsOnly ["a"])) ["p1"] []) (tagsOnly ["a"]));
    reflexivity.
Defined.

(** X8. When the store answers and [limit ≥ 0], the content-based
    generator returns the top of the ranking: [min(limit, n)] of the [n]
    products the user has not viewed or purchased, and no product left
    out scores higher than a returned one. If [n ≤ limit] all of them
    are returned. *)
Theorem content_based_top st userId limit user up :
  users st !! userId = Some user →
  User.preferences user = Some up →
  refuses st FindById = false →
  refuses st FindProducts = false →
  0 ≤ limit →
  let returned := getContentBasedRecommendations st userId limit in
  length returned = Nat.min (Z.to_nat limit) (length (unseen st user))
  ∧ (∀ p q, p ∈ returned → q ∈ unseen st user → q ∉ returned → by_score up p q)
  ∧ (Z.of_nat (length (unseen st user)) ≤ limit → returned ≡ₚ unseen st user).
Proof.
  intros Huser Hpref Hfind Hproducts Hlimit returned. subst returned.
  rewrite (getContentBasedRecommendations_ranked _ _ _ _ _ Huser Hpref Hfind Hproducts).
  unfold slice0. destruct (Z.leb_spec 0 limit); [|lia].
  split; [by rewrite length_take, sort_by_Permutation|]. split.
  - intros p q Hp Hq Hnq. apply may_precede_by_score.
    by apply (take_sort_by_top (scores_higher up)
                (scores_higher_asym up) (scores_higher_trans up)
                (Z.to_nat limit) (unseen st user)).
  - intros Hall. rewrite take_ge; [apply sort_by_Permutation|].
    rewrite sort_by_Permutation. lia.
Qed.

Lemma content_based_top_witness :
  length (getContentBasedRecommendations sampleStore "u1" 2) = 2%nat
  ∧ getContentBasedRecommendations sampleStore "u1" 5
    ≡ₚ unseen sampleStore (plainUser (Some (tagsOnly ["a"])) ["p1"] []).
Proof.
  pose proof (content_based_top sampleStore "u1" 2
                (plainUser (Some (tagsOnly ["a"])) ["p1"] []) (tagsOnly ["a"])
                eq_refl eq_refl eq_refl eq_refl ltac:(lia)) as (Hlen & _ & _).
  pose proof (content_based_top sampleStore "u1" 5
                (plainUser (Some (tagsOnly ["a"])) ["p1"] []) (tagsOnly ["a"])
                eq_refl eq_refl eq_refl eq_refl ltac:(lia)) as (_ & _ & Hall).
  split; [exact Hlen|]. apply Hall. vm_compute. congruence.
Defined.

(** The sort is stable: elements that are pairwise tied keep their
    relative order. *)
Section Stable.
Context {A : Type} (before : A → A → bool).
Context (P : A → Prop) `{!∀ x, Decision (P x)}.
Hypothesis tied : ∀ x y, P x → P y → before x y = false.

Lemma filter_insert_sorted (x : A) (l : list A) :
  filter P (insert_sorted before x l) = filter P (x :: l).
Proof.
  induction l as [|y l IH]; [done|]. simpl.
  destruct (before y x) eqn:Hyx; [|done].
  rewrite filter_cons, IH, !filter_cons.
  destruct (decide (P y)) as [Hy|Hy], (decide (P x)) as [Hx|Hx]; try done.
  rewrite (tied y x Hy Hx) in Hyx. discriminate.
Qed.

Lemma filter_sort_by (l : list A) : filter P (sort_by before l) = filter P l.
Proof.
  induction l as [|x l IH]; [done|].
  change (sort_by before (x :: l)) with (insert_sorted before x (sort_by before l)).
  by rewrite filter_insert_sorted, !filter_cons, IH.
Qed.
End Stable.

Lemma Qle_bool_Qeq_l (x y z : Q) : (x == y)%Q → Qle_bool x z = Qle_bool y z.
Proof.
  intros Heq. destruct (Qle_bool y z) eqn:Hy.
  - apply Qle_bool_iff. apply Qle_bool_iff in Hy. by rewrite Heq.
  - destruct (Qle_bool x z) eqn:Hx; [|done].
    apply Qle_bool_iff in Hx. rewrite Heq in Hx. apply Qle_bool_iff in Hx. congruence.
Qed.

Lemma Qle_bool_Qeq_r (x y z : Q) : (x == y)%Q → Qle_bool z x = Qle_bool z y.
Proof.
  intros Heq. destruct (Qle_bool z y) eqn:Hy.
  - apply Qle_bool_iff. apply Qle_bool_iff in Hy. by rewrite Heq.
  - destruct (Qle_bool z x) eqn:Hx; [|done].
    apply Qle_bool_iff in Hx. rewrite Heq in Hx. apply Qle_bool_iff in Hx. congruence.
Qed.

(** Products with the same category, price and tags get the same score. *)
Lemma sameInputs_scoreOf up a b : sameInputs a b → scoreOf up b = scoreOf up a.
Proof.
  intros (Hcategory & Hprice & Htags).
  unfold scoreOf, tagsMatch, priceMatch, categoryMatch, js_ge, js_le.
  rewrite Hcategory, Htags.
  destruct (Preferences.priceRange up) as [[[lo|] [hi|]]|]; cbn [Preferences.min Preferences.max];
    rewrite ?(Qle_bool_Qeq_r _ _ _ Hprice), ?(Qle_bool_Qeq_l _ _ _ Hprice);
    reflexivity.
Qed.

Lemma sameInputs_tied up a x y :
  sameInputs a x → sameInputs a y → scores_higher up x y = false.
Proof.
  intros Hx%(sameInputs_scoreOf up) Hy%(sameInputs_scoreOf up).
  unfold scores_higher. rewrite Hx, Hy.
  apply negb_false_iff, Qle_bool_iff, Qle_refl.
Qed.

(** X9. Products the scorer cannot tell apart keep store order: among
    the products with one and the same category, price and tags, the
    returned ones are, in the same order, the first of those the user
    has not seen. *)
Theorem content_based_stable st userId limit user up a :
  users st !! userId = Some user →
  User.preferences user = Some up →
  filter (sameInputs a) (getContentBasedRecommendations st userId limit)
  `prefix_of` filter (sameInputs a) (unseen st user).
Proof.
  intros Huser Hpref.
  destruct (getContentBasedRecommendations_cases st userId limit user up Huser Hpref)
    as [-> | ->]; [apply prefix_nil|].
  destruct (slice0_take limit (sort_by (scores_higher up) (unseen st user))) as [k ->].
  rewrite <- (filter_sort_by (scores_higher up) (sameInputs a) (sameInputs_tied up a)
                (unseen st user)).
  rewrite <- (take_drop k (sort_by (scores_higher up) (unseen st user))) at 2.
  rewrite filter_app. by apply prefix_app_r.
Qed.

Lemma content_based_stable_witness :
  filter (sameInputs (sampleProduct "p5" ["b"]))
         (getContentBasedRecommendations storeWithTwins "u1" 2)
  `prefix_of`
  filter (sameInputs (sampleProduct "p5" ["b"]))
         (unseen storeWithTwins (plainUser (Some (tagsOnly ["a"])) ["p1"] [])).
Proof.
  apply (content_based_stable storeWithTwins "u1" 2
           (plainUser (Some (tagsOnly ["a"])) ["p1"] []) (tagsOnly ["a"])
           (sampleProduct "p5" ["b"]));
    reflexivity.
Defined.

(** ** Trending generator *)

Lemma store_limit_take {A : Type} (n : Z) (docs : list A) :
  ∃ k, store_limit n docs = take k docs.
Proof.
  unfold store_limit. destruct (n =? 0); [|eauto].
  exists (length docs). by rewrite take_ge.
Qed.

Lemma getTrendingProducts_cases st limit :
  getTrendingProducts st limit = []
  ∨ ∃ k, getTrendingProducts st limit
         = take k (sort_by trending_before (products st)).
Proof.
  unfold getTrendingProducts, Product_find_trending, query.
  destruct (refuses st FindProducts); run; [by left|right].
  apply store_limit_take.
Qed.

(** C6 (as stated, refuted). Without a user id the recommendations are
    not bounded by every [limit]: the store reads [.limit(0)] as no limit
    and [.limit(-2)] as a limit of two, so for [limit = 0] all four
    products of the sample store are recommended and for [limit = -2]
    two. *)
Lemma anonymous_limit_not_a_bound :
  length (recommendations (getRecommendations sampleStore None 0)) = 4%nat
  ∧ ¬ (Z.of_nat (length (recommendations (getRecommendations sampleStore None 0)))
       ≤ 0)
  ∧ length (recommendations (getRecommendations sampleStore None (-2))) = 2%nat
  ∧ ¬ (Z.of_nat (length (recommendations (getRecommendations sampleStore None (-2))))
       ≤ -2).
Proof.
  split; [reflexivity|]. split; [vm_compute; congruence|].
  split; [reflexivity|]. vm_compute. congruence.
Qed.

(** C6 (amended). Without a user id (undefined, null or the empty
    string) the response carries the trending list for [limit] as
    [recommendations] and as [trending] and has no [contentBased] and no
    [collaborative] key. That list consists of products of the store,
    ordered by review count, highest first, then by rating, and no
    product left out ranks above a returned one; it is empty if the store
    rejects the query. For a positive [limit] it has at most [limit]
    entries, exactly [min(limit, n)] of the [n] products when the store
    answers. *)
Theorem anonymous_trending_only st userId limit :
  absent userId = true →
  let r := getRecommendations st userId limit in
  r = {| recommendations := getTrendingProducts st limit;
         contentBased := None; collaborative := None;
         trending := getTrendingProducts st limit |}
  ∧ recommendations r ⊆ products st
  ∧ StronglySorted by_popularity (recommendations r)
  ∧ (∀ p q, p ∈ recommendations r → q ∈ products st → q ∉ recommendations r →
       by_popularity p q)
  ∧ (refuses st FindProducts = true → recommendations r = [])
  ∧ (0 < limit → Z.of_nat (length (recommendations r)) ≤ limit)
  ∧ (refuses st FindProducts = false → 0 < limit →
     length (recommendations r)
     = Nat.min (Z.to_nat limit) (length (products st))).
Proof.
  intros Habsent r. subst r.
  assert (Heq : getRecommendations st userId limit
                = {| recommendations := getTrendingProducts st limit;
                     contentBased := None; collaborative := None;
                     trending := getTrendingProducts st limit |}).
  { unfold getRecommendations, blend, blend_try. by rewrite Habsent. }
  rewrite Heq. cbn [recommendations]. repeat apply conj.
  - reflexivity.
  - destruct (getTrendingProducts_cases st limit) as [-> | [k ->]];
      [by intros ? ?%elem_of_nil|].
    intros p Hp%subseteq_take. by rewrite sort_by_Permutation in Hp.
  - destruct (getTrendingProducts_cases st limit) as [-> | [k ->]]; [constructor|].
    pose proof (sort_by_StronglySorted trending_before
                  trending_before_asym trending_before_trans (products st))
      as Hsorted.
    rewrite <- (take_drop k (sort_by _ _)) in Hsorted.
    apply StronglySorted_app_1_l in Hsorted.
    clear -Hsorted. induction Hsorted as [|x l _ IH Hx]; constructor; [done|].
    eapply Forall_impl; [exact Hx|]. intros y. apply may_precede_by_popularity.
  - intros p q Hp Hq Hnq.
    destruct (getTrendingProducts_cases st limit) as [Hnil | [k Hk]];
      [rewrite Hnil in Hp; by apply elem_of_nil in Hp|].
    rewrite Hk in Hp, Hnq. apply may_precede_by_popularity.
    by apply (take_sort_by_top trending_before
                trending_before_asym trending_before_trans k (products st)).
  - intros Hrejects. unfold getTrendingProducts, Product_find_trending, query.
    by rewrite Hrejects.
  - intros Hlimit. by apply getTrendingProducts_length.
  - intros Hanswers Hlimit.
    unfold getTrendingProducts, Product_find_trending, query, store_limit.
    rewrite Hanswers. cbn [try_catch]. destruct (Z.eqb_spec limit 0); [lia|].
    rewrite length_take, sort_by_Permutation. lia.
Qed.

Lemma anonymous_trending_only_witness :
  let r := getRecommendations sampleStore None 3 in
  r = {| recommendations := getTrendingProducts sampleStore 3;
         contentBased := None; collaborative := None;
         trending := getTrendingProducts sampleStore 3 |}
  ∧ Z.of_nat (length (recommendations r)) ≤ 3
  ∧ length (recommendations r) = 3%nat.
Proof.
  destruct (anonymous_trending_only sampleStore None 3)
    as (Heq & _ & _ & _ & _ & Hbound & Hlen).
  - reflexivity.
  - exact (conj Heq (conj (Hbound ltac:(lia)) (Hlen eq_refl ltac:(lia)))).
Defined.

(** X10. The trending list is ordered by review count, highest first,
    and by rating among products with equally many reviews; it consists
    of products of the store, and no product left out ranks strictly
    above a returned one. When the store answers and [limit > 0] it has
    exactly [min(limit, n)] entries, [n] being the number of products. *)
Theorem trending_ranked st limit :
  let returned := getTrendingProducts st limit in
  StronglySorted by_popularity returned
  ∧ returned ⊆ products st
  ∧ (∀ p q, p ∈ returned → q ∈ products st → q ∉ returned → by_popularity p q)
  ∧ (refuses st FindProducts = false → 0 < limit →
     length returned = Nat.min (Z.to_nat limit) (length (products st))).
Proof.
  intros returned. subst returned. repeat apply conj.
  - destruct (getTrendingProducts_cases st limit) as [-> | [k ->]]; [constructor|].
    pose proof (sort_by_StronglySorted trending_before
                  trending_before_asym trending_before_trans (products st))
      as Hsorted.
    rewrite <- (take_drop k (sort_by _ _)) in Hsorted.
    apply StronglySorted_app_1_l in Hsorted.
    clear -Hsorted. induction Hsorted as [|x l _ IH Hx]; constructor; [done|].
    eapply Forall_impl; [exact Hx|]. intros y. apply may_precede_by_popularity.
  - destruct (getTrendingProducts_cases st limit) as [-> | [k ->]];
      [by intros ? ?%elem_of_nil|].
    intros p Hp%subseteq_take. by rewrite sort_by_Permutation in Hp.
  - intros p q Hp Hq Hnq.
    destruct (getTrendingProducts_cases st limit) as [Hnil | [k Hk]];
      [rewrite Hnil in Hp; by apply elem_of_nil in Hp|].
    rewrite Hk in Hp, Hnq. apply may_precede_by_popularity.
    by apply (take_sort_by_top trending_before
                trending_before_asym trending_before_trans k (products st)).
  - intros Hproducts Hlimit.
    unfold getTrendingProducts, Product_find_trending, query, store_limit.
    rewrite Hproducts. run. destruct (Z.eqb_spec limit 0); [lia|].
    rewrite length_take, sort_by_Permutation. lia.
Qed.

Lemma trending_ranked_witness :
  length (getTrendingProducts sampleStore 3) = 3%nat.
Proof.
  pose proof (trending_ranked sampleStore 3) as (_ & _ & _ & Hlen).
  apply Hlen; [reflexivity|lia].
Defined.

(** ** Collaborative generator *)

Lemma addUnseen_origin own (s : gset string) similarUser id :
  id ∈ addUnseen own s similarUser → id ∈ s ∨ id ∈ userProductIds similarUser.
Proof.
  unfold addUnseen, userProductIds.
  generalize ((User.productId <$> User.viewHistory similarUser)
              ++ (User.productId <$> User.purchases similarUser)).
  intros l. revert s. induction l as [|x l IH]; intros s; simpl; [by left|].
  intros [Hid|Hid]%IH; [|right; by right].
  destruct (includes own x); [by left|].
  apply elem_of_union in Hid as [->%elem_of_singleton|Hid]; [right; by left|by left].
Qed.

Lemma similarUserProductIds_origin own similarUsers id :
  id ∈ foldl (addUnseen own) ∅ similarUsers →
  ∃ similarUser, similarUser ∈ similarUsers ∧ id ∈ userProductIds similarUser.
Proof.
  assert (H : ∀ (s : gset string),
             id ∈ foldl (addUnseen own) s similarUsers →
             id ∈ s ∨ ∃ similarUser,
                 similarUser ∈ similarUsers ∧ id ∈ userProductIds similarUser).
  { induction similarUsers as [|u l IH]; intros s; simpl; [by left|].
    intros [[Hid|Hid]%addUnseen_origin|(v & Hv & Hid)]%IH.
    - by left.
    - right. exists u. split; [by left|done].
    - right. exists v. split; [by right|done]. }
  intros [Hid|Hid]%H; [set_solver|done].
Qed.

Lemma similar_to_true userId own other neighbour :
  similar_to userId own (other, neighbour) = true →
  other ≠ userId
  ∧ ∃ shared, shared ∈ own ∧ shared ∈ userProductIds neighbour.
Proof.
  unfold similar_to, userProductIds. simpl.
  intros [Hne Hshared]%andb_true_iff. split.
  - apply negb_true_iff, bool_decide_eq_false in Hne. exact Hne.
  - apply orb_true_iff in Hshared
      as [(shared & Hin & Hincl)%existsb_exists|(shared & Hin & Hincl)%existsb_exists];
      exists shared; (split; [by apply includes_true|]);
      apply elem_of_app; [left|right]; by apply list_elem_of_In.
Qed.

Lemma collaborative_origin st userId limit p :
  p ∈ getCollaborativeRecommendations st userId limit →
  ∃ user other neighbour shared,
    users st !! userId = Some user
    ∧ other ≠ userId
    ∧ users st !! other = Some neighbour
    ∧ shared ∈ userProductIds user
    ∧ shared ∈ userProductIds neighbour
    ∧ Product._id p ∈ userProductIds neighbour
    ∧ (Product._id p ∉ userProductIds user)
    ∧ p ∈ products st.
Proof.
  unfold getCollaborativeRecommendations, getCollaborativeRecommendations_try,
    User_findById, User_find_similar, Product_find_in, query.
  destruct (refuses st FindById); run; [by intros ?%elem_of_nil|].
  destruct (users st !! userId) as [user|] eqn:Huser; run; [|by intros ?%elem_of_nil].
  destruct (refuses st FindUsers); run; [by intros ?%elem_of_nil|].
  destruct (refuses st FindProducts); run; [by intros ?%elem_of_nil|].
  intros Hp%store_limit_subseteq.
  apply list_elem_of_filter in Hp as [Hid Hp].
  apply includes_true, elem_of_elements in Hid.
  pose proof (similarUserProductIds_fresh _ _ _ Hid) as Hfresh.
  apply similarUserProductIds_origin in Hid as (neighbour & Hnb & Hid).
  apply store_limit_subseteq, list_elem_of_fmap in Hnb as ([other nb] & -> & Hnb).
  apply list_elem_of_filter in Hnb as [Hsim Hnb].
  apply elem_of_map_to_list in Hnb.
  apply similar_to_true in Hsim as (Hne & shared & Hown & Hshared).
  exists user, other, nb, shared. by repeat split.
Qed.

(** X11. Every product the collaborative generator returns is a product
    of the store that the user has not viewed or purchased and that some
    other user - one whose history shares a product with the user's -
    has viewed or purchased. *)
Theorem collaborative_from_neighbours st userId limit p :
  p ∈ getCollaborativeRecommendations st userId limit →
  ∃ user other neighbour shared,
    users st !! userId = Some user
    ∧ other ≠ userId
    ∧ users st !! other = Some neighbour
    ∧ shared ∈ userProductIds user
    ∧ shared ∈ userProductIds neighbour
    ∧ Product._id p ∈ userProductIds neighbour
    ∧ (Product._id p ∉ userProductIds user)
    ∧ p ∈ products st.
Proof. apply collaborative_origin. Qed.

Lemma collaborative_from_neighbours_witness :
  ∃ user other neighbour shared,
    users sampleStore !! "u1" = Some user
    ∧ other ≠ "u1"
    ∧ users sampleStore !! other = Some neighbour
    ∧ shared ∈ userProductIds user
    ∧ shared ∈ userProductIds neighbour
    ∧ Product._id P2 ∈ userProductIds neighbour
    ∧ (Product._id P2 ∉ userProductIds user)
    ∧ P2 ∈ products sampleStore.
Proof.
  apply (collaborative_from_neighbours sampleStore "u1" 5 P2).
  assert (H : getCollaborativeRecommendations sampleStore "u1" 5 = [P2; P3])
    by (vm_compute; reflexivity).
  rewrite H. by left.
Defined.

(** X12. A user who has neither viewed nor purchased anything gets no
    collaborative recommendations, whatever the other users did. *)
Theorem collaborative_cold_start st userId limit user :
  users st !! userId = Some user →
  User.viewHistory user = [] →
  User.purchases user = [] →
  getCollaborativeRecommendations st userId limit = [].
Proof.
  intros Huser Hviews Hpurchases.
  destruct (getCollaborativeRecommendations st userId limit) as [|p l] eqn:Hout; [done|].
  assert (Hp : p ∈ getCollaborativeRecommendations st userId limit)
    by (rewrite Hout; by left).
  apply collaborative_origin
    in Hp as (user' & other & neighbour & shared & Huser' & _ & _ & Hshared & _).
  rewrite Huser in Huser'. injection Huser' as <-.
  unfold userProductIds in Hshared. rewrite Hviews, Hpurchases in Hshared.
  by apply elem_of_nil in Hshared.
Qed.

Lemma collaborative_cold_start_witness :
  getCollaborativeRecommendations storeWithNewcomer "u3" 5 = [].
Proof.
  apply (collaborative_cold_start storeWithNewcomer "u3" 5
           (plainUser (Some audioOnly) [] [])); reflexivity.
Defined.

Lemma addUnseen_mono own (s : gset string) similarUser id :
  id ∈ s → id ∈ addUnseen own s similarUser.
Proof.
  unfold addUnseen.
  generalize ((User.productId <$> User.viewHistory similarUser)
              ++ (User.productId <$> User.purchases similarUser)).
  intros l. revert s. induction l as [|x l IH]; intros s Hid; simpl; [done|].
  apply IH. destruct (includes own x); [done|set_solver].
Qed.

Lemma addUnseen_complete own (s : gset string) similarUser id :
  id ∈ userProductIds similarUser → id ∉ own → id ∈ addUnseen own s similarUser.
Proof.
  unfold addUnseen, userProductIds.
  generalize ((User.productId <$> User.viewHistory similarUser)
              ++ (User.productId <$> User.purchases similarUser)).
  intros l. revert s. induction l as [|x l IH]; intros s Hid Hown; simpl.
  - by apply elem_of_nil in Hid.
  - apply elem_of_cons in Hid as [->|Hid]; [|by apply IH].
    assert (Hx : includes own x = false).
    { destruct (includes own x) eqn:Hx; [|done]. by apply includes_true in Hx. }
    rewrite Hx.
    assert (Hmono : ∀ (s' : gset string), x ∈ s' →
              x ∈ foldl (λ (s : gset string) productId,
                           if includes own productId then s else {[productId]} ∪ s)
                        s' l).
    { clear IH. induction l as [|y l IHl]; intros s' Hs'; simpl; [done|].
      apply IHl. destruct (includes own y); [done|set_solver]. }
    apply Hmono. set_solver.
Qed.

Lemma similarUserProductIds_complete own similarUsers similarUser id :
  similarUser ∈ similarUsers →
  id ∈ userProductIds similarUser → id ∉ own →
  id ∈ foldl (addUnseen own) ∅ similarUsers.
Proof.
  intros Hin Hid Hown.
  assert (Hmono : ∀ l (s : gset string), id ∈ s → id ∈ foldl (addUnseen own) s l).
  { induction l as [|u l IH]; intros s Hs; simpl; [done|].
    by apply IH, addUnseen_mono. }
  generalize (∅ : gset string). induction similarUsers as [|u l IH]; intros s; simpl.
  - by apply elem_of_nil in Hin.
  - apply elem_of_cons in Hin as [<-|Hin]; [|by apply IH].
    by apply Hmono, addUnseen_complete.
Qed.

Lemma similar_to_intro userId own other neighbour shared :
  other ≠ userId → shared ∈ own → shared ∈ userProductIds neighbour →
  similar_to userId own (other, neighbour) = true.
Proof.
  intros Hne Hown Hshared. unfold similar_to. simpl.
  apply andb_true_iff. split.
  - by apply negb_true_iff, bool_decide_eq_false.
  - apply orb_true_iff. unfold userProductIds in Hshared.
    apply elem_of_app in Hshared as [Hin|Hin]; [left|right];
      apply existsb_exists; exists shared;
      (split; [by apply list_elem_of_In|by apply includes_true]).
Qed.

(** X13. In a store of at most ten users that answers, and with a
    positive [limit] no smaller than the number of products, the
    collaborative generator misses nothing: every product of the store
    that the user has not viewed or purchased, and that another user
    sharing a product with the user has viewed or purchased, is returned. *)
Theorem collaborative_complete st userId limit user other neighbour shared p :
  users st !! userId = Some user →
  (∀ op, refuses st op = false) →
  (size (users st) ≤ 10)%nat →
  Z.of_nat (length (products st)) ≤ limit →
  0 < limit →
  other ≠ userId →
  users st !! other = Some neighbour →
  shared ∈ userProductIds user →
  shared ∈ userProductIds neighbour →
  Product._id p ∈ userProductIds neighbour →
  Product._id p ∉ userProductIds user →
  p ∈ products st →
  p ∈ getCollaborativeRecommendations st userId limit.
Proof.
  intros Huser Hup Husers Hproducts Hlimit Hne Hother Hown Hshared Hid Hfresh Hp.
  unfold getCollaborativeRecommendations, getCollaborativeRecommendations_try,
    User_findById, User_find_similar, Product_find_in, query.
  rewrite !Hup, Huser. run. unfold store_limit.
  destruct (Z.eqb_spec limit 0); [lia|]. simpl (10 =? 0).
  rewrite (take_ge (filter _ (products st)))
    by (pose proof (length_filter
                      (λ p, includes (elements (foldl (addUnseen (userProductIds user)) ∅
                         (take (Z.to_nat (Z.abs 10))
                            (filter (λ doc, similar_to userId (userProductIds user) doc = true)
                               (map_to_list (users st))).*2))) (Product._id p) = true)
                      (products st)); lia).
  apply list_elem_of_filter. split; [|done].
  apply includes_true, elem_of_elements.
  apply (similarUserProductIds_complete _ _ neighbour); [|done|done].
  rewrite take_ge.
  - apply list_elem_of_fmap. exists (other, neighbour). split; [done|].
    apply list_elem_of_filter. split.
    + by apply (similar_to_intro _ _ _ _ shared).
    + by apply elem_of_map_to_list.
  - rewrite length_fmap.
    pose proof (length_filter
                  (λ doc, similar_to userId (userProductIds user) doc = true)
                  (map_to_list (users st))) as Hlen.
    rewrite length_map_to_list in Hlen. simpl. lia.
Qed.

Lemma collaborative_complete_witness :
  P3 ∈ getCollaborativeRecommendations sampleStore "u1" 5.
Proof.
  apply (collaborative_complete sampleStore "u1" 5
           (plainUser (Some (tagsOnly ["a"])) ["p1"] []) "u2"
           (plainUser None ["p1"; "p2"] ["p3"]) "p1" P3).
  - reflexivity.
  - intros op. reflexivity.
  - vm_compute. lia.
  - vm_compute. congruence.
  - lia.
  - discriminate.
  - reflexivity.
  - apply (bool_decide_unpack _). vm_compute. exact I.
  - apply (bool_decide_unpack _). vm_compute. exact I.
  - apply (bool_decide_unpack _). vm_compute. exact I.
  - apply (bool_decide_unpack _). vm_compute. exact I.
  - right. right. by left.
Defined.

(** ** Blender *)

Lemma firstSeen_sublist added l : firstSeen added l `sublist_of` l.
Proof.
  revert added. induction l as [|p l IH]; intros added; simpl; [done|].
  destruct (bool_decide (Product._id p ∈ added)).
  - by apply sublist_cons.
  - by apply sublist_skip.
Qed.

Lemma ids_firstSeen added l : ids (firstSeen added l) ∪ added = ids l ∪ added.
Proof.
  revert added. induction l as [|p l IH]; intros added; cbn [firstSeen]; [done|].
  destruct (bool_decide_reflect (Product._id p ∈ added)) as [Hin|Hnin].
  - rewrite IH, ids_cons. generalize (ids l). intros X. set_solver.
  - rewrite !ids_cons.
    pose proof (IH ({[Product._id p]} ∪ added)) as Hrest. revert Hrest.
    generalize (ids (firstSeen ({[Product._id p]} ∪ added) l)), (ids l).
    intros X Y Hrest. apply set_eq. intros x.
    pose proof (proj1 (set_eq _ _) Hrest x) as Hx. clear Hrest. set_solver.
Qed.

Lemma combine_sublist limit c cb t :
  slice0 limit (combine limit c cb t) `sublist_of` c ++ cb ++ t.
Proof.
  rewrite combine_merge_spec.
  etrans; [apply slice0_sublist|].
  etrans; [apply merge_spec_sublist|apply firstSeen_sublist].
Qed.

Lemma unknown_user_empty st userId limit :
  users st !! userId = None →
  getContentBasedRecommendations st userId limit = []
  ∧ getCollaborativeRecommendations st userId limit = [].
Proof.
  intros Hnone.
  unfold getContentBasedRecommendations, getContentBasedRecommendations_try,
    getCollaborativeRecommendations, getCollaborativeRecommendations_try,
    User_findById, query.
  destruct (refuses st FindById); run; [done|]. by rewrite Hnone.
Qed.

(** X14. For a user id the store does not know, both personalised lists
    are empty and the recommendations are the de-duplicated trending
    products for [floor(limit/3)], cut to [limit]: an unknown user gets
    about a third of the requested number. *)
Theorem unknown_user_trending_only st (userId : string) limit :
  userId ≠ "" →
  users st !! userId = None →
  let r := getRecommendations st (Some userId) limit in
  contentBased r = Some []
  ∧ collaborative r = Some []
  ∧ trending r = getTrendingProducts st (limit / 3)
  ∧ (0 ≤ limit →
     recommendations r
     = take (Z.to_nat limit) (firstSeen ∅ (getTrendingProducts st (limit / 3))))
  ∧ (3 ≤ limit → Z.of_nat (length (recommendations r)) ≤ limit / 3).
Proof.
  intros Hne Hnone r. subst r.
  rewrite (getRecommendations_resolved _ _ _ Hne).
  destruct (unknown_user_empty st userId (limit / 2) Hnone) as [-> ->].
  cbn [contentBased collaborative trending recommendations].
  repeat apply conj; try reflexivity.
  - intros Hlimit. rewrite combine_merge_spec.
    by rewrite (take_merge_spec limit [] [] _ Hlimit).
  - intros Hlimit.
    pose proof (combine_sublist limit [] [] (getTrendingProducts st (limit / 3)))
      as Hsub%sublist_length.
    simpl in Hsub.
    pose proof (getTrendingProducts_length st (limit / 3)
                  ltac:(by apply Z.div_str_pos)).
    lia.
Qed.

Lemma unknown_user_trending_only_witness :
  let r := getRecommendations sampleStore (Some "nobody") 6 in
  contentBased r = Some []
  ∧ collaborative r = Some []
  ∧ Z.of_nat (length (recommendations r)) ≤ 2.
Proof.
  destruct (unknown_user_trending_only sampleStore "nobody" 6)
    as (Hcb & Hc & _ & _ & Hlen).
  - discriminate.
  - reflexivity.
  - exact (conj Hcb (conj Hc (Hlen ltac:(lia)))).
Defined.

(** X15. With a user id and [limit ≥ 0], at most [limit] products are
    recommended, and for [limit = 0] none - although the raw lists in the
    same response may hold more. *)
Theorem recommendations_at_most_limit st (userId : string) limit :
  userId ≠ "" →
  0 ≤ limit →
  Z.of_nat (length (recommendations (getRecommendations st (Some userId) limit)))
  ≤ limit.
Proof.
  intros Hne Hlimit. rewrite (getRecommendations_resolved _ _ _ Hne).
  cbn [recommendations]. by apply slice0_length.
Qed.

Lemma recommendations_at_most_limit_witness :
  Z.of_nat (length (recommendations (getRecommendations sampleStore (Some "u1") 0)))
  ≤ 0.
Proof.
  apply (recommendations_at_most_limit sampleStore "u1" 0); [discriminate|lia].
Defined.

Lemma raw_lists_cover_recommendations st (userId : string) limit :
  userId ≠ "" →
  recommendations (getRecommendations st (Some userId) limit)
  `sublist_of`
  getCollaborativeRecommendations st userId (limit / 2)
  ++ getContentBasedRecommendations st userId (limit / 2)
  ++ getTrendingProducts st (limit / 3).
Proof.
  intros Hne. rewrite (getRecommendations_resolved _ _ _ Hne).
  cbn [recommendations]. apply combine_sublist.
Qed.

(** X16. With a user id, the recommendations are drawn from the three
    raw lists of the same response and keep their order: they form a
    sub-sequence of collaborative, then content-based, then trending. *)
Theorem recommendations_from_raw_lists st (userId : string) limit :
  userId ≠ "" →
  recommendations (getRecommendations st (Some userId) limit)
  `sublist_of`
  getCollaborativeRecommendations st userId (limit / 2)
  ++ getContentBasedRecommendations st userId (limit / 2)
  ++ getTrendingProducts st (limit / 3).
Proof. apply raw_lists_cover_recommendations. Qed.

Lemma recommendations_from_raw_lists_witness :
  recommendations (getRecommendations sampleStore (Some "u1") 6)
  `sublist_of`
  getCollaborativeRecommendations sampleStore "u1" 3
  ++ getContentBasedRecommendations sampleStore "u1" 3
  ++ getTrendingProducts sampleStore 2.
Proof.
  apply (recommendations_from_raw_lists sampleStore "u1" 6). discriminate.
Defined.

(** X17. When the three raw lists together hold no more than [limit]
    products, nothing is lost in the merge: every product id of a raw
    list is the id of a recommended product. *)
Theorem recommendations_complete st (userId : string) limit :
  userId ≠ "" →
  let c := getCollaborativeRecommendations st userId (limit / 2) in
  let cb := getContentBasedRecommendations st userId (limit / 2) in
  let t := getTrendingProducts st (limit / 3) in
  Z.of_nat (length (c ++ cb ++ t)) ≤ limit →
  recommendations (getRecommendations st (Some userId) limit)
  = firstSeen ∅ (c ++ cb ++ t)
  ∧ ids (recommendations (getRecommendations st (Some userId) limit))
    = ids (c ++ cb ++ t).
Proof.
  intros Hne c cb t Hroom.
  rewrite (getRecommendations_resolved _ _ _ Hne). cbn [recommendations].
  fold c cb t. rewrite combine_merge_spec, take_merge_spec by lia.
  pose proof (sublist_length _ _ (firstSeen_sublist ∅ (c ++ cb ++ t))) as Hlen.
  rewrite take_ge by lia. split; [done|].
  pose proof (ids_firstSeen ∅ (c ++ cb ++ t)). set_solver.
Qed.

Lemma recommendations_complete_witness :
  ids (recommendations (getRecommendations sampleStore (Some "u1") 9))
  = ids (getCollaborativeRecommendations sampleStore "u1" 4
         ++ getContentBasedRecommendations sampleStore "u1" 4
         ++ getTrendingProducts sampleStore 3).
Proof.
  apply (recommendations_complete sampleStore "u1" 9); [discriminate|].
  vm_compute. congruence.
Defined.

(** X18. Collaborative results have priority: for [limit ≥ 0] the
    recommendations start with the collaborative list, repeats dropped,
    cut to [limit]. *)
Theorem recommendations_start_with_collaborative st (userId : string) limit :
  userId ≠ "" →
  0 ≤ limit →
  take (Z.to_nat limit)
       (firstSeen ∅ (getCollaborativeRecommendations st userId (limit / 2)))
  `prefix_of` recommendations (getRecommendations st (Some userId) limit).
Proof.
  intros Hne Hlimit. rewrite (getRecommendations_resolved _ _ _ Hne).
  cbn [recommendations].
  rewrite combine_merge_spec, take_merge_spec by done.
  rewrite firstSeen_app, take_app. by apply prefix_app_r.
Qed.

Lemma recommendations_start_with_collaborative_witness :
  take 6 (firstSeen ∅ (getCollaborativeRecommendations sampleStore "u1" 3))
  `prefix_of` recommendations (getRecommendations sampleStore (Some "u1") 6).
Proof.
  apply (recommendations_start_with_collaborative sampleStore "u1" 6);
    [discriminate|lia].
Defined.

(** X19. For [limit ≤ 0] the trending pass adds nothing: the
    recommendations are cut from the merged collaborative and
    content-based lists alone. *)
Theorem nonpositive_limit_skips_trending st (userId : string) limit :
  userId ≠ "" →
  limit ≤ 0 →
  recommendations (getRecommendations st (Some userId) limit)
  = slice0 limit
      (firstSeen ∅ (getCollaborativeRecommendations st userId (limit / 2)
                    ++ getContentBasedRecommendations st userId (limit / 2))).
Proof.
  intros Hne Hlimit. rewrite (getRecommendations_resolved _ _ _ Hne).
  cbn [recommendations]. rewrite combine_merge_spec. unfold merge_spec.
  replace (Z.to_nat (limit - _)) with 0%nat by lia.
  rewrite take_0, app_nil_r, firstSeen_app.
  do 3 f_equal. set_solver.
Qed.

Lemma nonpositive_limit_skips_trending_witness :
  recommendations (getRecommendations sampleStore (Some "u1") (-2))
  = slice0 (-2)
      (firstSeen ∅ (getCollaborativeRecommendations sampleStore "u1" (-1)
                    ++ getContentBasedRecommendations sampleStore "u1" (-1))).
Proof.
  apply (nonpositive_limit_skips_trending sampleStore "u1" (-2)); [discriminate|lia].
Defined.

(** X20. A product the user has already viewed or purchased can only be
    recommended through the trending list: if it is among the
    recommendations, it is among the trending products of the response. *)
Theorem seen_product_only_via_trending st (userId : string) limit user p :
  userId ≠ "" →
  users st !! userId = Some user →
  Product._id p ∈ userProductIds user →
  p ∈ recommendations (getRecommendations st (Some userId) limit) →
  p ∈ getTrendingProducts st (limit / 3).
Proof.
  intros Hne Huser Hseen Hp.
  eapply elem_of_sublist in Hp; [|by apply raw_lists_cover_recommendations].
  apply elem_of_app in Hp as [Hp|[Hp|Hp]%elem_of_app]; [| |done].
  - by apply (getCollaborativeRecommendations_fresh _ _ _ _ _ Huser) in Hp.
  - apply (getContentBasedRecommendations_subseteq _ _ _ _ Huser) in Hp.
    apply list_elem_of_filter in Hp as [Hp _].
    apply includes_true in Hseen. congruence.
Qed.

Lemma seen_product_only_via_trending_witness :
  P1 ∈ getTrendingProducts sampleStore 1.
Proof.
  apply (seen_product_only_via_trending sampleStore "u1" 4
           (plainUser (Some (tagsOnly ["a"])) ["p1"] []) P1).
  - discriminate.
  - reflexivity.
  - apply (bool_decide_unpack _). vm_compute. exact I.
  - assert (H : recommendations (getRecommendations sampleStore (Some "u1") 4)
                = [P2; P3; P1]) by (vm_compute; reflexivity).
    rewrite H. right. right. by left.
Defined.

(** ** History and preference mutators *)

Lemma update_noop st userId update :
  users st !! userId = None ∨ refuses st FindByIdAndUpdate = true →
  try_catch (User_findByIdAndUpdate st userId update) st = st.
Proof.
  intros [Hnone|Hup]; [|apply findByIdAndUpdate_skipped; right; by right].
  destruct (findByIdAndUpdate_cases st userId update) as [-> | (change & _ & ->)];
    [done|].
  rewrite (alter_absent _ _ _ Hnone). apply store_eta.
Qed.


(** Closed forms of the two history mutators. *)
Lemma recordProductView_unfold st userId productId now :
  recordProductView st userId productId now
  = if isObjectId userId && isObjectId productId
       && negb (refuses st FindByIdAndUpdate)
    then {| users := alter (pushView productId now) userId (users st);
            products := products st; refuses := refuses st |}
    else st.
Proof.
  unfold recordProductView.
  destruct (isObjectId userId) eqn:Hu;
    [destruct (isObjectId productId) eqn:Hp;
      [destruct (refuses st FindByIdAndUpdate) eqn:Hup|]|]; cbn [andb negb].
  - apply findByIdAndUpdate_skipped. right. by right.
  - by apply findByIdAndUpdate_applied; [|apply castUpdate_view|].
  - apply findByIdAndUpdate_skipped. right. left.
    exists CastError. by apply castUpdate_push_rejected.
  - apply findByIdAndUpdate_skipped. by left.
Qed.

Lemma recordProductPurchase_unfold st userId productId now :
  recordProductPurchase st userId productId now
  = if isObjectId userId && isObjectId productId
       && negb (refuses st FindByIdAndUpdate)
    then {| users := alter (pushPurchase productId now) userId (users st);
            products := products st; refuses := refuses st |}
    else st.
Proof.
  unfold recordProductPurchase.
  destruct (isObjectId userId) eqn:Hu;
    [destruct (isObjectId productId) eqn:Hp;
      [destruct (refuses st FindByIdAndUpdate) eqn:Hup|]|]; cbn [andb negb].
  - apply findByIdAndUpdate_skipped. right. by right.
  - by apply findByIdAndUpdate_applied; [|apply castUpdate_purchase|].
  - apply findByIdAndUpdate_skipped. right. left.
    exists CastError. by apply castUpdate_push_rejected.
  - apply findByIdAndUpdate_skipped. by left.
Qed.



(** X22. Recording views or purchases and updating preferences never
    changes the trending list: it is computed from the products' review
    counts and ratings, which no mutator touches. *)
Theorem mutators_keep_trending st (userId productId : string) (now : Z)
    preferences limit :
  getTrendingProducts (recordProductView st userId productId now) limit
  = getTrendingProducts st limit
  ∧ getTrendingProducts (recordProductPurchase st userId productId now) limit
    = getTrendingProducts st limit
  ∧ getTrendingProducts (updateUserPreferences st userId preferences) limit
    = getTrendingProducts st limit.
Proof.
  unfold recordProductView, recordProductPurchase, updateUserPreferences,
    getTrendingProducts, Product_find_trending, query.
  repeat apply conj;
    match goal with
    | |- context [User_findByIdAndUpdate st userId ?f] =>
        destruct (update_frame st userId f) as (-> & -> & _)
    end; reflexivity.
Qed.









(** X26. Recording a view and recording a purchase commute: whichever
    is carried out first, for the same or for different users, the store
    ends up the same. *)
Theorem view_purchase_commute st (u1 p1 u2 p2 : string) (t1 t2 : Z) :
  recordProductPurchase (recordProductView st u1 p1 t1) u2 p2 t2
  = recordProductView (recordProductPurchase st u2 p2 t2) u1 p1 t1.
Proof.
  rewrite !recordProductView_unfold, !recordProductPurchase_unfold.
  destruct (isObjectId u1 && isObjectId p1 && negb (refuses st FindByIdAndUpdate))
    eqn:Hv;
    destruct (isObjectId u2 && isObjectId p2 && negb (refuses st FindByIdAndUpdate))
      eqn:Hp;
    cbn [refuses]; rewrite ?Hv, ?Hp; cbn [users products refuses]; try done.
  f_equal. destruct (decide (u1 = u2)) as [<-|Hne].
  - rewrite !alter_alter_eq. by apply alter_ext.
  - by apply alter_alter_ne.
Qed.

(** ** HTTP routes *)

Lemma orDefault_nonzero parsed fallback : fallback ≠ 0 → orDefault parsed fallback ≠ 0.
Proof.
  intros Hne. unfold orDefault. destruct parsed as [n|]; [|done].
  by destruct (Z.eqb_spec n 0).
Qed.

Lemma unreachable_empty st (userId : string) limit :
  (∀ op, refuses st op = true) →
  getContentBasedRecommendations st userId limit = []
  ∧ getCollaborativeRecommendations st userId limit = []
  ∧ getTrendingProducts st limit = [].
Proof.
  intros Hdown.
  unfold getContentBasedRecommendations, getContentBasedRecommendations_try,
    getCollaborativeRecommendations, getCollaborativeRecommendations_try,
    getTrendingProducts, Product_find_trending, User_findById, query.
  by rewrite !Hdown.
Qed.

Lemma anonymous_length st limit :
  0 < limit →
  Z.of_nat (length (recommendations (getRecommendations st (Some "") limit))) ≤ limit.
Proof.
  intros Hpos. unfold getRecommendations, blend, blend_try. simpl.
  by apply getTrendingProducts_length.
Qed.

(** X27. [GET /trending] cannot succeed: the route calls
    [recommendationService.getTrendingProducts], which the service module
    does not export, so for every store and every request the reply is
    status 500 with the message "Error fetching trending products". *)
Theorem trending_route_always_fails st req :
  getTrending st req
  = {| status := 500; payload := Message "Error fetching trending products" |}.
Proof. reflexivity. Qed.

(** X28. The three writing routes answer by the request alone. With
    [req.user] set they answer 200 and leave the store as the service
    call leaves it - so also when the user id is unknown or the store
    rejects the update and nothing was written; without [req.user] they
    answer 500 and leave the store untouched. *)
Theorem write_routes_reply st req now :
  (∀ userId, Request.user req = Some userId →
     postView st req now
     = (recordProductView st userId (Request.productId req) now,
        {| status := 200; payload := Message "View recorded" |})
     ∧ postPurchase st req now
       = (recordProductPurchase st userId (Request.productId req) now,
          {| status := 200; payload := Message "Purchase recorded" |})
     ∧ putPreferences st req
       = (updateUserPreferences st userId (Request.body req),
          {| status := 200; payload := Message "Preferences updated" |})
     ∧ (users st !! userId = None ∨ refuses st FindByIdAndUpdate = true →
        postView st req now
        = (st, {| status := 200; payload := Message "View recorded" |})
        ∧ postPurchase st req now
          = (st, {| status := 200; payload := Message "Purchase recorded" |})
        ∧ putPreferences st req
          = (st, {| status := 200; payload := Message "Preferences updated" |})))
  ∧ (Request.user req = None →
     postView st req now
     = (st, {| status := 500; payload := Message "Error recording view" |})
     ∧ postPurchase st req now
       = (st, {| status := 500; payload := Message "Error recording purchase" |})
     ∧ putPreferences st req
       = (st, {| status := 500; payload := Message "Error updating preferences" |})).
Proof.
  split.
  - intros userId Huser.
    assert (Hv : postView st req now
                 = (recordProductView st userId (Request.productId req) now,
                    {| status := 200; payload := Message "View recorded" |}))
      by (unfold postView, userIdOf; by rewrite Huser).
    assert (Hp : postPurchase st req now
                 = (recordProductPurchase st userId (Request.productId req) now,
                    {| status := 200; payload := Message "Purchase recorded" |}))
      by (unfold postPurchase, userIdOf; by rewrite Huser).
    assert (Hu : putPreferences st req
                 = (updateUserPreferences st userId (Request.body req),
                    {| status := 200; payload := Message "Preferences updated" |}))
      by (unfold putPreferences, userIdOf; by rewrite Huser).
    repeat apply conj; [exact Hv|exact Hp|exact Hu|].
    intros Hcase. rewrite Hv, Hp, Hu.
    unfold recordProductView, recordProductPurchase, updateUserPreferences.
    by rewrite !(update_noop st userId _ Hcase).
  - intros Hnone. unfold postView, postPurchase, putPreferences, userIdOf.
    by rewrite Hnone.
Qed.

Lemma write_routes_reply_witness :
  postView unreachableStore (requestOf (Some "u1") None) 7
  = (unreachableStore, {| status := 200; payload := Message "View recorded" |})
  ∧ postView sampleStore (requestOf None None) 7
    = (sampleStore, {| status := 500; payload := Message "Error recording view" |}).
Proof.
  destruct (write_routes_reply unreachableStore (requestOf (Some "u1") None) 7)
    as [Hauth _].
  destruct (write_routes_reply sampleStore (requestOf None None) 7) as [_ Hanon].
  destruct (Hauth "u1" eq_refl) as (_ & _ & _ & Hsilent).
  destruct (Hsilent (or_intror eq_refl)) as (Hview & _).
  destruct (Hanon eq_refl) as (Herror & _).
  exact (conj Hview Herror).
Defined.

(** X29. [GET /] with [req.user] set always answers 200 with the result
    of [getRecommendations] for the limit of the query string, where a
    missing, unparsable or zero limit counts as 10; if that limit is
    positive the reply recommends at most that many products. Without
    [req.user] the reply is 500. *)
Theorem root_route_reply st req :
  (∀ userId, Request.user req = Some userId →
     let limit := orDefault (Request.limit req) 10 in
     getRoot st req
     = {| status := 200;
          payload := Recommendations (getRecommendations st (Some userId) limit) |}
     ∧ limit ≠ 0
     ∧ (Request.limit req = None ∨ Request.limit req = Some 0 → limit = 10)
     ∧ (0 < limit →
        Z.of_nat (length (recommendations (getRecommendations st (Some userId) limit)))
        ≤ limit))
  ∧ (Request.user req = None →
     getRoot st req
     = {| status := 500; payload := Message "Error fetching recommendations" |}).
Proof.
  split.
  - intros userId Huser limit. subst limit. repeat apply conj.
    + unfold getRoot, userIdOf. by rewrite Huser.
    + by apply orDefault_nonzero.
    + by intros [-> | ->].
    + intros Hpos. destruct (decide (userId = "")) as [->|Hne].
      * by apply anonymous_length.
      * rewrite (getRecommendations_resolved _ _ _ Hne). cbn [recommendations].
        apply slice0_length. lia.
  - intros Hnone. unfold getRoot, userIdOf. by rewrite Hnone.
Qed.

Lemma root_route_reply_witness :
  getRoot sampleStore (requestOf (Some "u1") None)
  = {| status := 200;
       payload := Recommendations (getRecommendations sampleStore (Some "u1") 10) |}
  ∧ Z.of_nat (length (recommendations (getRecommendations sampleStore (Some "u1") 10)))
    ≤ 10
  ∧ getRoot sampleStore (requestOf None (Some 3))
    = {| status := 500; payload := Message "Error fetching recommendations" |}.
Proof.
  destruct (root_route_reply sampleStore (requestOf (Some "u1") None)) as [Hauth _].
  destruct (root_route_reply sampleStore (requestOf None (Some 3))) as [_ Hanon].
  destruct (Hauth "u1" eq_refl) as (Hreply & _ & _ & Hlen).
  exact (conj Hreply (conj (Hlen ltac:(vm_compute; reflexivity)) (Hanon eq_refl))).
Defined.

(** X30. While the store is unreachable, recommendations for a user id
    are the four empty lists - and [GET /] still answers 200 with them:
    a client cannot tell an outage from having nothing to recommend. *)
Theorem unreachable_store_empty_reply st req (userId : string) limit :
  (∀ op, refuses st op = true) →
  userId ≠ "" →
  getRecommendations st (Some userId) limit = emptyResponse
  ∧ (Request.user req = Some userId →
     getRoot st req
     = {| status := 200; payload := Recommendations emptyResponse |}).
Proof.
  intros Hdown Hne.
  assert (Hempty : ∀ limit, getRecommendations st (Some userId) limit = emptyResponse).
  { intros l. rewrite (getRecommendations_resolved _ _ _ Hne).
    destruct (unreachable_empty st userId (l / 2) Hdown) as (-> & -> & _).
    destruct (unreachable_empty st userId (l / 3) Hdown) as (_ & _ & ->).
    unfold emptyResponse, combine, slice0. simpl.
    by destruct (0 <=? l); rewrite take_nil. }
  split; [apply Hempty|].
  intros Huser. unfold getRoot, userIdOf. rewrite Huser. run.
  unfold callExport. simpl. by rewrite Hempty.
Qed.

Lemma unreachable_store_empty_reply_witness :
  getRecommendations unreachableStore (Some "u1") 10 = emptyResponse
  ∧ getRoot unreachableStore (requestOf (Some "u1") None)
    = {| status := 200; payload := Recommendations emptyResponse |}.
Proof.
  destruct (unreachable_store_empty_reply unreachableStore
              (requestOf (Some "u1") None) "u1" 10) as [Hempty Hreply].
  - intros op. reflexivity.
  - discriminate.
  - exact (conj Hempty (Hreply eq_refl)).
Defined.
